(** * Backend_Task: the transaction dashboard service (server.js)

    A shallow embedding of the Express/Mongoose service of [src/server.js]
    and the properties of its five routes.

    Modelling conventions.
    - A JavaScript string is a [string] of 8-bit code units; letter case is
      folded on the ASCII letters only.
    - A finite JavaScript number is the rational it denotes ([Q]); the
      non-finite ones are the extra constructors of [number].  Rounding of a
      decimal literal to the nearest double is a parameter of the platform
      ([fl]), and so is the sum that the store computes ([store_sum]).
      Integers and their products and quotients are exact and unbounded:
      they are those of JavaScript up to 2^53 in absolute value.
    - A date is its time value, milliseconds since the epoch ([Z]); an
      Invalid Date is [None].
    - A parameter of the query string is missing or is one string.
    - The collection is the list of its documents in natural order; a route
      handler is a computation in a monad that threads the collection, logs
      every call made on the model and can throw.  The store is taken to be
      reachable: a call fails only when its argument is rejected.
    - The patterns of [$regex] are read by module [Regex] on a fragment of
      their language; what the store does with any other pattern is a
      parameter of the platform ([pcre]).
    - What the runtime and the libraries decide and the repository does not
      (time zone, [Date.parse], Mongoose casts) is gathered in [Platform]. *)

From Stdlib Require Import ZArith QArith Qabs Qround Ascii String List Bool Lia.
From stdpp Require Import base option list strings pretty gmap fin_maps.

Set Warnings "-register-all".
Local Open Scope string_scope.
Local Open Scope Z_scope.

(** ** JavaScript numbers *)

Inductive number :=
| NaN
| Inf (negative : bool)
| Fin (q : Q).

Definition isNaN (n : number) : bool :=
  match n with NaN => true | _ => false end.

Definition isFinite (n : number) : bool :=
  match n with Fin _ => true | _ => false end.

(** ** Lexical helpers shared by [parseInt] and [parseFloat] *)

Module Lex.

Definition code (c : ascii) : Z := Z.of_nat (nat_of_ascii c).

(** StrWhiteSpaceChar, on 8-bit code units: TAB, LF, VT, FF, CR, SP, NBSP. *)
Definition is_space (c : ascii) : bool :=
  let n := code c in
  ((9 <=? n) && (n <=? 13)) || (n =? 32) || (n =? 160).

Definition is_digit (c : ascii) : bool :=
  let n := code c in (48 <=? n) && (n <=? 57).

Definition digit_val (c : ascii) : Z := code c - 48.

Fixpoint trim_start (s : list ascii) : list ascii :=
  match s with
  | c :: s' => if is_space c then trim_start s' else s
  | [] => []
  end.

(** The longest prefix of decimal digits and what follows it. *)
Fixpoint span_digits (s : list ascii) : list ascii * list ascii :=
  match s with
  | c :: s' =>
      if is_digit c
      then let '(ds, rest) := span_digits s' in (c :: ds, rest)
      else ([], s)
  | [] => ([], [])
  end.

Definition digits_value (ds : list ascii) : Z :=
  fold_left (fun acc c => 10 * acc + digit_val c) ds 0.

(** An optional sign: [true] for a minus, and what follows it. *)
Definition take_sign (s : list ascii) : bool * list ascii :=
  match s with
  | "-"%char :: s' => (true, s')
  | "+"%char :: s' => (false, s')
  | _ => (false, s)
  end.

Definition chars (s : string) : list ascii := list_ascii_of_string s.

End Lex.

(** ** [parseInt(s, 10)]

    Leading white space is skipped, an optional sign is read, then the
    longest run of decimal digits; what follows the digits is ignored.
    [None] is NaN.  The result is the integer that the digits denote: it is
    the Number that JavaScript returns up to 2^53 in absolute value (beyond,
    JavaScript rounds), and the sign of a zero is not kept. *)
Definition parseInt (s : string) : option Z :=
  let '(neg, body) := Lex.take_sign (Lex.trim_start (Lex.chars s)) in
  match Lex.span_digits body with
  | ([], _) => None
  | (ds, _) => Some (if neg then - Lex.digits_value ds else Lex.digits_value ds)
  end.

(** ** [parseFloat(s)]

    The longest prefix of the trimmed string that is a StrDecimalLiteral:
    sign, then [Infinity], or digits with an optional fraction and an optional
    exponent, or a fraction alone with an optional exponent. *)
Module Float.

Inductive literal :=
| LitInfinity (negative : bool)
| LitDecimal (q : Q).

Definition pow10 (e : Z) : Q :=
  if 0 <=? e then inject_Z (10 ^ e) else / inject_Z (10 ^ (- e)).

(** [e] or [E], an optional sign and at least one digit; otherwise there
    is no exponent part and the literal ends before the [e]. *)
Definition exponent (s : list ascii) : Z :=
  match s with
  | c :: s' =>
      if (Lex.code c =? 101) || (Lex.code c =? 69) then
        let '(neg, s'') := Lex.take_sign s' in
        match Lex.span_digits s'' with
        | ([], _) => 0
        | (ds, _) => if neg then - Lex.digits_value ds else Lex.digits_value ds
        end
      else 0
  | [] => 0
  end.

Definition is_infinity (s : list ascii) : bool :=
  bool_decide (take 8 s = Lex.chars "Infinity").

(** The unsigned part of the literal, as a rational. *)
Definition unsigned_decimal (s : list ascii) : option Q :=
  let '(ip, rest) := Lex.span_digits s in
  match rest with
  | "."%char :: rest' =>
      let '(fp, rest'') := Lex.span_digits rest' in
      match ip, fp with
      | [], [] => None
      | _, _ =>
          let mant :=
            (inject_Z (Lex.digits_value ip)
             + inject_Z (Lex.digits_value fp) * pow10 (- Z.of_nat (length fp)))%Q in
          Some (mant * pow10 (exponent rest''))%Q
      end
  | _ =>
      match ip with
      | [] => None
      | _ => Some (inject_Z (Lex.digits_value ip) * pow10 (exponent rest))%Q
      end
  end.

Definition StrDecimalLiteral (s : list ascii) : option literal :=
  let '(neg, body) := Lex.take_sign s in
  if is_infinity body then Some (LitInfinity neg)
  else match unsigned_decimal body with
       | Some q => Some (LitDecimal (if neg then - q else q)%Q)
       | None => None
       end.

End Float.

Section ParseFloat.
(** Rounding of the mathematical value of a literal to a Number: the
    nearest double, or an infinity on overflow. *)
Variable fl : Q -> number.

Definition parseFloat (s : string) : number :=
  match Float.StrDecimalLiteral (Lex.trim_start (Lex.chars s)) with
  | None => NaN
  | Some (Float.LitInfinity neg) => Inf neg
  | Some (Float.LitDecimal q) => fl q
  end.
End ParseFloat.

(** ** Regular expressions of the [$regex] operator

    The fragment of the pattern language modelled here: literal characters,
    [.], the quantifiers [*], [+] and [?] on an atom or a group, alternation
    and grouping, and a backslash before a character that is not a letter or
    a digit.  [compile] answers [None] on every other pattern: those are
    left to the platform, which matches them or rejects them as the store
    does (an unclosed group, a quantifier with nothing to repeat). *)
Module Regex.

Inductive regex :=
| Void
| Eps
| Chr (c : ascii)
| Dot
| Cat (r1 r2 : regex)
| Alt (r1 r2 : regex)
| Star (r : regex).

(** Option [i]: letters match in either case. *)
Definition lower (c : ascii) : ascii :=
  let n := Lex.code c in
  if (65 <=? n) && (n <=? 90) then ascii_of_nat (Z.to_nat (n + 32)) else c.

Definition ci_eqb (a b : ascii) : bool := Ascii.eqb (lower a) (lower b).

Definition is_newline (c : ascii) : bool := Lex.code c =? 10.

(** The words of a pattern, letter case folded. *)
Inductive lang : regex -> list ascii -> Prop :=
| lang_eps : lang Eps []
| lang_chr a c : ci_eqb a c = true -> lang (Chr a) [c]
| lang_dot c : is_newline c = false -> lang Dot [c]
| lang_cat r1 r2 u v : lang r1 u -> lang r2 v -> lang (Cat r1 r2) (u ++ v)
| lang_alt_l r1 r2 u : lang r1 u -> lang (Alt r1 r2) u
| lang_alt_r r1 r2 u : lang r2 u -> lang (Alt r1 r2) u
| lang_star_nil r : lang (Star r) []
| lang_star_app r u v : lang r u -> lang (Star r) v -> lang (Star r) (u ++ v).

Fixpoint nullable (r : regex) : bool :=
  match r with
  | Void | Chr _ | Dot => false
  | Eps | Star _ => true
  | Cat r1 r2 => nullable r1 && nullable r2
  | Alt r1 r2 => nullable r1 || nullable r2
  end.

Fixpoint deriv (c : ascii) (r : regex) : regex :=
  match r with
  | Void | Eps => Void
  | Chr a => if ci_eqb a c then Eps else Void
  | Dot => if is_newline c then Void else Eps
  | Cat r1 r2 =>
      if nullable r1
      then Alt (Cat (deriv c r1) r2) (deriv c r2)
      else Cat (deriv c r1) r2
  | Alt r1 r2 => Alt (deriv c r1) (deriv c r2)
  | Star r1 => Cat (deriv c r1) (Star r1)
  end.

(** Some prefix of [s] is a word of [r]. *)
Fixpoint match_prefix (r : regex) (s : list ascii) : bool :=
  nullable r ||
  match s with
  | c :: s' => match_prefix (deriv c r) s'
  | [] => false
  end.

(** Unanchored search: a word of [r] starts at some position of [s]. *)
Fixpoint search (r : regex) (s : list ascii) : bool :=
  match_prefix r s ||
  match s with
  | _ :: s' => search r s'
  | [] => false
  end.

(** *** Reading a pattern *)

(** One nesting level while reading: the alternatives already closed by a
    [|], and the atoms of the alternative being read, latest first. *)
Record frame := Frame { alts : list regex; atoms : list regex }.

Definition empty_frame : frame := Frame [] [].

Definition cat_of (rev_atoms : list regex) : regex :=
  fold_left (fun acc a => Cat a acc) rev_atoms Eps.

Definition close (f : frame) : regex :=
  fold_right Alt (cat_of (atoms f)) (alts f).

Definition push (a : regex) (f : frame) : frame :=
  Frame (alts f) (a :: atoms f).

Definition next_alt (f : frame) : frame :=
  Frame (alts f ++ [cat_of (atoms f)])%list [].

Definition quantify (c : ascii) (a : regex) : regex :=
  if Ascii.eqb c "*" then Star a
  else if Ascii.eqb c "+" then Cat a (Star a)
  else Alt a Eps.

Definition is_quantifier (c : ascii) : bool :=
  Ascii.eqb c "*" || Ascii.eqb c "+" || Ascii.eqb c "?".

Definition is_alnum (c : ascii) : bool :=
  let n := Lex.code c in
  Lex.is_digit c || ((65 <=? n) && (n <=? 90)) || ((97 <=? n) && (n <=? 122)).

(** The characters with a meaning of their own in a pattern. *)
Definition is_meta (c : ascii) : bool :=
  bool_decide (c ∈ Lex.chars "\^$.|?*+()[]{}").

(** [q] tells whether the item just read can take a quantifier. *)
Fixpoint read (p : list ascii) (cur : frame) (stack : list frame) (q : bool)
  : option regex :=
  match p with
  | [] => match stack with [] => Some (close cur) | _ :: _ => None end
  | c :: p' =>
      if Ascii.eqb c "(" then read p' empty_frame (cur :: stack) false
      else if Ascii.eqb c ")" then
        match stack with
        | parent :: stack' => read p' (push (close cur) parent) stack' true
        | [] => None
        end
      else if Ascii.eqb c "|" then read p' (next_alt cur) stack false
      else if is_quantifier c then
        match q, atoms cur with
        | true, a :: rest => read p' (Frame (alts cur) (quantify c a :: rest)) stack false
        | _, _ => None
        end
      else if Ascii.eqb c "\" then
        match p' with
        | d :: p'' => if is_alnum d then None else read p'' (push (Chr d) cur) stack true
        | [] => None
        end
      else if Ascii.eqb c "." then read p' (push Dot cur) stack true
      else if is_meta c then None
      else read p' (push (Chr c) cur) stack true
  end.

Definition compile (pattern : string) : option regex :=
  read (Lex.chars pattern) empty_frame [] false.

(** [{ $regex: pattern, $options: 'i' }] against a string value. *)
Definition test (r : regex) (subject : string) : bool :=
  search r (Lex.chars subject).

(** The pattern that a string without special characters reads as. *)
Definition literal (p : list ascii) : regex :=
  fold_right (fun c acc => Cat (Chr c) acc) Eps p.

(** No character of the string has a meaning of its own in a pattern. *)
Definition plain (pattern : string) : Prop :=
  Forall (fun c => is_meta c = false) (Lex.chars pattern).

(** [s] contains [p] as a substring, letter case ignored. *)
Definition ci_eq (p w : list ascii) : Prop :=
  Forall2 (fun a c => ci_eqb a c = true) p w.

Definition ci_contains (s p : string) : Prop :=
  exists before w after,
    Lex.chars s = (before ++ w ++ after)%list /\ ci_eq (Lex.chars p) w.

End Regex.

(** ** Dates: the time-value arithmetic behind [new Date(year, month, 1)] *)
Module DateTime.

Definition msPerDay : Z := 86400000.

Definition DayFromYear (y : Z) : Z :=
  365 * (y - 1970) + (y - 1969) / 4 - (y - 1901) / 100 + (y - 1601) / 400.

Definition InLeapYear (y : Z) : bool :=
  ((y mod 4 =? 0) && negb (y mod 100 =? 0)) || (y mod 400 =? 0).

(** Day within the year on which month [mn] (0 = January) starts. *)
Definition DayWithinYear (y mn : Z) : Z :=
  nth (Z.to_nat mn) [0; 31; 59; 90; 120; 151; 181; 212; 243; 273; 304; 334] 0
  + (if InLeapYear y && (2 <=? mn) then 1 else 0).

(** A month index outside 0..11 carries into the year. *)
Definition MakeDay (year month date : Z) : Z :=
  let ym := year + month / 12 in
  let mn := month mod 12 in
  DayFromYear ym + DayWithinYear ym mn + date - 1.

Definition MakeDate (day time : Z) : Z := day * msPerDay + time.

(** A year from 0 to 99 given to the constructor stands for 1900 + year. *)
Definition MakeFullYear (y : Z) : Z :=
  if (0 <=? y) && (y <=? 99) then 1900 + y else y.

Definition TimeClip (t : Z) : option Z :=
  if Z.abs t <=? 8640000000000000 then Some t else None.

(** Local time value of the first instant of month [m] (1..12) of year [y]. *)
Definition first_instant (y m : Z) : Z :=
  (DayFromYear y + DayWithinYear y (m - 1)) * msPerDay.

(** The month after [m] of year [y]. *)
Definition next_month (y m : Z) : Z * Z :=
  if m =? 12 then (y + 1, 1) else (y, m + 1).

(** *** The date-time string format, [YYYY-MM-DDTHH:mm:ss.sssZ]

    A year alone, a year and a month, or a full date, the year of four
    digits or of six after a sign; then nothing, or [T] and a time of day
    with optional seconds and milliseconds; then nothing, [Z], or an offset
    [+HH:mm] or [-HH:mm].  The whole string is read. *)

Definition digits2 (s : list ascii) : option (Z * list ascii) :=
  match s with
  | a :: b :: rest =>
      if Lex.is_digit a && Lex.is_digit b
      then Some (Lex.digits_value [a; b], rest) else None
  | _ => None
  end.

Definition digits3 (s : list ascii) : option (Z * list ascii) :=
  match s with
  | a :: b :: c :: rest =>
      if Lex.is_digit a && Lex.is_digit b && Lex.is_digit c
      then Some (Lex.digits_value [a; b; c], rest) else None
  | _ => None
  end.

Definition digits4 (s : list ascii) : option (Z * list ascii) :=
  match s with
  | a :: b :: c :: d :: rest =>
      if forallb Lex.is_digit [a; b; c; d]
      then Some (Lex.digits_value [a; b; c; d], rest) else None
  | _ => None
  end.

Definition digits6 (s : list ascii) : option (Z * list ascii) :=
  match s with
  | a :: b :: c :: d :: e :: f :: rest =>
      if forallb Lex.is_digit [a; b; c; d; e; f]
      then Some (Lex.digits_value [a; b; c; d; e; f], rest) else None
  | _ => None
  end.

(** The year: [-000000] is not one. *)
Definition read_year (s : list ascii) : option (Z * list ascii) :=
  match s with
  | "+"%char :: s' => digits6 s'
  | "-"%char :: s' =>
      match digits6 s' with
      | Some (y, rest) => if y =? 0 then None else Some (- y, rest)
      | None => None
      end
  | _ => digits4 s
  end.

(** The calendar date: year, month and day, and what follows. *)
Definition read_date (s : list ascii) : option (Z * Z * Z * list ascii) :=
  match read_year s with
  | Some (y, "-"%char :: s1) =>
      match digits2 s1 with
      | Some (m, "-"%char :: s2) =>
          match digits2 s2 with
          | Some (d, rest) => Some (y, m, d, rest)
          | None => None
          end
      | Some (m, rest) => Some (y, m, 1, rest)
      | None => None
      end
  | Some (y, rest) => Some (y, 1, 1, rest)
  | None => None
  end.

(** Hours, minutes, seconds and milliseconds of a time of day: midnight
    may be written as hour 24. *)
Definition is_time (h mi sec ms : Z) : bool :=
  ((h <=? 23) && (mi <=? 59) && (sec <=? 59))
  || ((h =? 24) && (mi =? 0) && (sec =? 0) && (ms =? 0)).

(** The time of day in milliseconds, and what follows. *)
Definition read_time (s : list ascii) : option (Z * list ascii) :=
  match digits2 s with
  | Some (h, ":"%char :: s1) =>
      match digits2 s1 with
      | Some (mi, ":"%char :: s2) =>
          match digits2 s2 with
          | Some (sec, "."%char :: s3) =>
              match digits3 s3 with
              | Some (ms, rest) =>
                  if is_time h mi sec ms
                  then Some (((h * 60 + mi) * 60 + sec) * 1000 + ms, rest) else None
              | None => None
              end
          | Some (sec, rest) =>
              if is_time h mi sec 0
              then Some (((h * 60 + mi) * 60 + sec) * 1000, rest) else None
          | None => None
          end
      | Some (mi, rest) =>
          if is_time h mi 0 0
          then Some ((h * 60 + mi) * 60000, rest) else None
      | None => None
      end
  | _ => None
  end.

(** The offset from UTC in milliseconds; nothing may follow it. *)
Definition read_offset (s : list ascii) : option Z :=
  match s with
  | [] => Some 0
  | ["Z"%char] => Some 0
  | sign :: s1 =>
      match digits2 s1 with
      | Some (h, ":"%char :: s2) =>
          match digits2 s2 with
          | Some (mi, []) =>
              if (h <=? 23) && (mi <=? 59) then
                if Ascii.eqb sign "+" then Some ((h * 60 + mi) * 60000)
                else if Ascii.eqb sign "-" then Some (- ((h * 60 + mi) * 60000))
                else None
              else None
          | _ => None
          end
      | _ => None
      end
  end.

(** The time value of a string in the format, read in the UTC zone.  A
    day up to 31 is read in every month, and counted on into the next
    month where the month is shorter, as V8 does. *)
Definition date_time_string (s : list ascii) : option Z :=
  match read_date s with
  | Some (y, m, d, rest) =>
      if (1 <=? m) && (m <=? 12) && (1 <=? d) && (d <=? 31) then
        let day := MakeDay y (m - 1) d in
        match rest with
        | [] => TimeClip (MakeDate day 0)
        | "T"%char :: rest' =>
            match read_time rest' with
            | Some (time, zone) =>
                match read_offset zone with
                | Some offset => TimeClip (MakeDate day time - offset)
                | None => None
                end
            | None => None
            end
        | _ => None
        end
      else None
  | None => None
  end.

End DateTime.

(** ** JSON values of the upstream payload *)

Inductive json :=
| JNull
| JBool (b : bool)
| JNum (q : Q)
| JStr (s : string)
| JArr (items : list json)
| JObj (fields : list (string * json)).

(** A JavaScript value read from the payload: [None] is [undefined]. *)
Definition value : Type := option json.

Definition isArray (j : json) : bool :=
  match j with JArr _ => true | _ => false end.

(** ** What the runtime and the libraries decide *)
Class Platform := {
  (** the Number nearest to a rational (an infinity on overflow) *)
  fl : Q -> number;
  (** the UTC time value of a local time value *)
  UTC : Z -> Z;
  (** [Date.parse]: the time value of a date string, [None] for NaN *)
  Date_parse : string -> option Z;
  (** the string an array or a plain object converts to *)
  ObjectToString : json -> string;
  (** Mongoose's cast of a value other than null and undefined to the
      schema types String and Number; [None] is a CastError *)
  castString : json -> option string;
  castNumber : json -> option Q;
  castString_string : forall s, castString (JStr s) = Some s;
  castNumber_number : forall q, castNumber (JNum q) = Some q;
  (** the time value the driver writes for an Invalid Date in a query *)
  bsonInvalidDate : Z;
  (** the store's matcher, under option [i], for a pattern that module
      [Regex] does not read; [None] when the store rejects the pattern *)
  pcre : string -> option (string -> bool);
  (** the store's [$sum] of numbers, in its own arithmetic on doubles;
      the sum of no number is 0 *)
  store_sum : list Q -> number;
  store_sum_nil : store_sum [] = Fin 0
}.

(** A rational as a Number without rounding: an infinity from the
    overflow threshold of doubles on. *)
Definition unrounded (q : Q) : number :=
  if Qle_bool (inject_Z (2 ^ 1024)) (Qabs q) then Inf (Qle_bool q 0) else Fin q.

(** A platform to run the handlers on: a server in the UTC zone, numbers
    and sums exact below the overflow threshold of doubles, [Date.parse]
    reading the date-time string format and nothing else, an array of
    items converted like a plain object, casts that accept only values
    already of the schema type, and a store that rejects every pattern
    outside the fragment of [Regex].  It serves to run the handlers on
    sample data; the theorems hold on every platform. *)
Definition utcPlatform : Platform := {|
  fl := unrounded;
  UTC := fun t => t;
  Date_parse := fun s => DateTime.date_time_string (Lex.chars s);
  ObjectToString := fun j => match j with JArr [] => "" | _ => "[object Object]" end;
  castString := fun j => match j with JStr s => Some s | _ => None end;
  castNumber := fun j => match j with JNum q => Some q | _ => None end;
  castString_string := fun s => eq_refl;
  castNumber_number := fun q => eq_refl;
  bsonInvalidDate := 0;
  pcre := fun pattern => None;
  store_sum := fun l => unrounded (fold_right Qplus 0%Q l);
  store_sum_nil := eq_refl
|}.

(** ** Documents of the collection

    The fields of [transactionSchema]; none is required, so each may be
    missing ([None]).  [sold] is not in the schema and is read by the
    statistics pipeline. *)
Record Transaction := mkTransaction {
  transactionId : option string;
  productId : option string;
  userId : option string;
  amount : option Q;
  date : option Z;
  title : option string;
  description : option string;
  price : option Q;
  category : option string;
  sold : option bool
}.

(** ** Query filters *)

Inductive clause :=
| TitleRegex (pattern : string)          (* title: { $regex, $options: 'i' } *)
| DescriptionRegex (pattern : string)    (* description: { $regex, $options: 'i' } *)
| PriceEq (n : number)                   (* price: n *)
| DateRange (gte lt : Z)                 (* date: { $gte, $lt } *)
| PriceBetween (gte lte : number)        (* price: { $gte, $lte } *)
| SoldIs (b : bool).                     (* sold: b *)

Inductive filter :=
| Or (clauses : list clause)             (* { $or: [...] } *)
| And (clauses : list clause).           (* the fields of one filter object *)

Definition number_le (a b : number) : bool :=
  match a, b with
  | NaN, _ | _, NaN => false
  | Inf true, _ => true
  | _, Inf false => true
  | Inf false, _ => false
  | _, Inf true => false
  | Fin x, Fin y => Qle_bool x y
  end.

Definition number_eqb (a b : number) : bool :=
  match a, b with
  | Fin x, Fin y => Qeq_bool x y
  | Inf s, Inf t => Bool.eqb s t
  | _, _ => false
  end.

Definition on_field {A} (field : option A) (p : A -> bool) : bool :=
  match field with Some x => p x | None => false end.

Section Filters.
Context {platform : Platform}.

(** The matcher of [{ $regex: pattern, $options: 'i' }]: that of [Regex] on
    the patterns it reads, the platform's on the others; [None] when the
    store rejects the pattern. *)
Definition regex_matcher (pattern : string) : option (string -> bool) :=
  match Regex.compile pattern with
  | Some r => Some (Regex.test r)
  | None => pcre pattern
  end.

(** The documents a clause selects; [None] when the store rejects it. *)
Definition clause_pred (c : clause) : option (Transaction -> bool) :=
  match c with
  | TitleRegex pattern =>
      match regex_matcher pattern with
      | Some matcher => Some (fun d => on_field (title d) matcher)
      | None => None
      end
  | DescriptionRegex pattern =>
      match regex_matcher pattern with
      | Some matcher => Some (fun d => on_field (description d) matcher)
      | None => None
      end
  | PriceEq n => Some (fun d => on_field (price d) (fun p => number_eqb (Fin p) n))
  | DateRange gte lt =>
      Some (fun d => on_field (date d) (fun t => (gte <=? t) && (t <? lt)))
  | PriceBetween gte lte =>
      Some (fun d => on_field (price d)
                       (fun p => number_le gte (Fin p) && number_le (Fin p) lte))
  | SoldIs b => Some (fun d => on_field (sold d) (Bool.eqb b))
  end.

Fixpoint clause_preds (cs : list clause) : option (list (Transaction -> bool)) :=
  match cs with
  | [] => Some []
  | c :: cs' =>
      match clause_pred c, clause_preds cs' with
      | Some p, Some ps => Some (p :: ps)
      | _, _ => None
      end
  end.

Definition filter_pred (f : filter) : option (Transaction -> bool) :=
  match f with
  | Or cs =>
      match clause_preds cs with
      | Some ps => Some (fun d => existsb (fun p => p d) ps)
      | None => None
      end
  | And cs =>
      match clause_preds cs with
      | Some ps => Some (fun d => forallb (fun p => p d) ps)
      | None => None
      end
  end.

End Filters.

(** The documents of [docs] that a predicate selects, in order. *)
Definition select (p : Transaction -> bool) (docs : list Transaction)
  : list Transaction := List.filter p docs.

(** ** The handler monad: the collection, the log of calls on the model,
    and exceptions *)

Inductive op :=
| OpDeleteMany (f : filter)
| OpInsertMany (count : nat)
| OpFind (f : filter) (skip limit : Z)
| OpCountDocuments (f : filter)
| OpAggregate (f : filter).

Record world := World { collection : list Transaction; oplog : list op }.

Record exn := Error { message : string }.

Inductive outcome (A : Type) :=
| Returned (a : A)
| Thrown (e : exn).
Arguments Returned {A} a.
Arguments Thrown {A} e.

Definition M (A : Type) : Type := world -> outcome A * world.

Definition ret {A} (a : A) : M A := fun w => (Returned a, w).

Definition bind {A B} (m : M A) (k : A -> M B) : M B :=
  fun w => match m w with
           | (Returned a, w') => k a w'
           | (Thrown e, w') => (Thrown e, w')
           end.

Definition throw {A} (e : exn) : M A := fun w => (Thrown e, w).

(** [try { body } catch (error) { handler }] *)
Definition try_catch {A} (body : M A) (handler : exn -> M A) : M A :=
  fun w => match body w with
           | (Returned a, w') => (Returned a, w')
           | (Thrown e, w') => handler e w'
           end.

Declare Scope handler_scope.
Delimit Scope handler_scope with handler.
Notation "x <- m ;; k" := (bind m (fun x => k))
  (at level 90, m at level 80, k at level 200, right associativity) : handler_scope.
Notation "m ;;; k" := (bind m (fun _ => k))
  (at level 90, k at level 200, right associativity) : handler_scope.
Local Open Scope handler_scope.

Fixpoint mapM {A B} (f : A -> M B) (l : list A) : M (list B) :=
  match l with
  | [] => ret []
  | x :: l' => y <- f x ;; ys <- mapM f l' ;; ret (y :: ys)
  end.

Definition logged {A} (o : op) (m : list Transaction -> outcome A * list Transaction)
  : M A :=
  fun w =>
    let '(r, docs) := m (collection w) in
    (r, World docs (oplog w ++ [o])%list).

Definition rejected : exn := Error "MongoServerError".

(** *** Calls on the model *)

Section Calls.
Context {platform : Platform}.

Definition deleteMany (f : filter) : M unit :=
  logged (OpDeleteMany f) (fun docs =>
    match filter_pred f with
    | Some p => (Returned tt, select (fun d => negb (p d)) docs)
    | None => (Thrown rejected, docs)
    end).

(** [find(f).skip(s).limit(l).exec()]: a negative skip is rejected, a limit
    of zero is no limit, a negative limit stands for its absolute value. *)
Definition find (f : filter) (skip limit : Z) : M (list Transaction) :=
  logged (OpFind f skip limit) (fun docs =>
    match filter_pred f with
    | Some p =>
        if skip <? 0 then (Thrown rejected, docs)
        else
          let rest := drop (Z.to_nat skip) (select p docs) in
          (Returned (if limit =? 0 then rest else take (Z.to_nat (Z.abs limit)) rest),
           docs)
    | None => (Thrown rejected, docs)
    end).

Definition countDocuments (f : filter) : M nat :=
  logged (OpCountDocuments f) (fun docs =>
    match filter_pred f with
    | Some p => (Returned (length (select p docs)), docs)
    | None => (Thrown rejected, docs)
    end).

(** [aggregate([{ $match: f }, ...stages])] *)
Definition aggregate {A} (f : filter) (stages : list Transaction -> A) : M A :=
  logged (OpAggregate f) (fun docs =>
    match filter_pred f with
    | Some p => (Returned (stages (select p docs)), docs)
    | None => (Thrown rejected, docs)
    end).

End Calls.

(** *** Pipeline stages *)
Module Stage.

Record facets := Facets {
  totalSaleAmount : list number;
  totalSoldItems : list nat;
  totalNotSoldItems : list nat
}.

Section Accumulators.
Context {platform : Platform}.

(** [$sum: "$amount"]: the store adds the amounts of the documents that
    have the field, in its own arithmetic; a document without the field
    adds nothing. *)
Definition sum_amount (docs : list Transaction) : number :=
  store_sum (omap amount docs).

(** [{ $group: { _id: null, total: { $sum: "$amount" } } }]: one
    document, none when no document comes in. *)
Definition group_total (docs : list Transaction) : list number :=
  match docs with
  | [] => []
  | _ :: _ => [sum_amount docs]
  end.

(** [{ $count: "count" }]: one document, none when no document comes in. *)
Definition count (docs : list Transaction) : list nat :=
  match docs with
  | [] => []
  | _ :: _ => [length docs]
  end.

(** [{ $match: { sold: b } }] inside a facet. *)
Definition match_sold (b : bool) (docs : list Transaction) : list Transaction :=
  select (fun d => on_field (sold d) (Bool.eqb b)) docs.

(** [{ $group: { _id: "$category", count: { $sum: 1 } } }]: the groups
    form a finite map from the key to the count; their order in the
    result is that of the map. *)
Definition group_by_category (docs : list Transaction) : gmap (option string) nat :=
  foldr (fun d m => <[category d := S (default 0%nat (m !! category d))]> m) ∅ docs.

(** [{ $project: { _id: 0, category: "$_id", count: 1 } }] *)
Definition project_category (groups : gmap (option string) nat)
  : list (option string * nat) := map_to_list groups.

Definition facet (docs : list Transaction) : list facets :=
  [Facets (group_total docs)
          (count (match_sold true docs))
          (count (match_sold false docs))].

End Accumulators.

End Stage.

(** ** Responses *)

Inductive body :=
| Message (text : string)
| TransactionsPage (transactions : list Transaction) (totalCount : nat)
                   (totalPages : number) (currentPage perPage : Z)
| Statistics (totalSaleAmount : number) (totalSoldItems totalNotSoldItems : nat)
| PriceRange (rows : list (string * nat))
| CategoryStats (rows : list (option string * nat)).

Record response := Response { status : Z; payload : body }.

(** [req.query]: the parameters of the query string. *)
Abbreviation query := (gmap string string).

(** ToString of a parameter that may be missing. *)
Definition param (q : query) (name : string) : string :=
  default "undefined" (q !! name).

Definition respond (code : Z) (b : body) : M response := ret (Response code b).

(** [Math.ceil(a / b)] on integers. *)
Definition divide (a b : Z) : number :=
  if b =? 0 then (if a =? 0 then NaN else Inf (a <? 0))
  else Fin (inject_Z a / inject_Z b)%Q.

Definition Math_ceil (n : number) : number :=
  match n with
  | Fin q => Fin (inject_Z (Qceiling q))
  | _ => n
  end.

(** [x || 0] on the first element of a facet, when there is one: zero
    and NaN are falsy. *)
Definition or_zero (x : option number) : number :=
  match x with
  | Some (Fin q) => if Qeq_bool q 0 then Fin 0 else Fin q
  | Some (Inf negative) => Inf negative
  | Some NaN | None => Fin 0
  end.

Definition or_zero_nat (x : option nat) : nat :=
  match x with
  | Some (S n) => S n
  | _ => 0%nat
  end.

(** The ten bands of [priceRanges]; [None] is [Infinity]. *)
Record band := Band { min : Z; max : option Z }.

Definition priceRanges : list band :=
  [ Band 0 (Some 100); Band 101 (Some 200); Band 201 (Some 300);
    Band 301 (Some 400); Band 401 (Some 500); Band 501 (Some 600);
    Band 601 (Some 700); Band 701 (Some 800); Band 801 (Some 900);
    Band 901 None ].

Definition band_max (b : band) : number :=
  match max b with
  | Some z => Fin (inject_Z z)
  | None => Inf false
  end.

(** The template literal [`${range.min} - ${range.max}`]. *)
Definition band_label (b : band) : string :=
  pretty (min b) ++ " - " ++
  match max b with Some z => pretty z | None => "Infinity" end.

Section Handlers.
Context {platform : Platform}.

(** [new Date(year, month, 1)], [None] when the date is invalid. *)
Definition newDate (year month : Z) : option Z :=
  DateTime.TimeClip
    (UTC (DateTime.MakeDate
            (DateTime.MakeDay (DateTime.MakeFullYear year) month 1) 0)).

(** A date bound as the driver sends it. *)
Definition bson (d : option Z) : Z := default bsonInvalidDate d.

(** [{ date: { $gte: startDate, $lt: endDate } }] for month [m] of [year]. *)
Definition month_window (year m : Z) : clause :=
  DateRange (bson (newDate year (m - 1))) (bson (newDate year m)).

(** *** GET /initialize *)

(** [new Date(v)] on a value of the payload. *)
Definition newDateOf (v : value) : option Z :=
  match v with
  | None => None
  | Some JNull => Some 0
  | Some (JBool b) => Some (if b then 1 else 0)
  | Some (JNum q) =>
      if Qle_bool (Qabs q) (inject_Z 8640000000000000)
      then Some (if Qle_bool 0 q then Qfloor q else Qceiling q)
      else None
  | Some (JStr s) => Date_parse s
  | Some j => Date_parse (ObjectToString j)
  end.

(** [parseDate]: [None] is the [null] returned for an invalid date. *)
Definition parseDate (dateString : value) : option Z :=
  let date := newDateOf dateString in
  match date with
  | None => None
  | Some t => Some t
  end.

Fixpoint lookup_field (name : string) (fields : list (string * json)) : value :=
  match fields with
  | [] => None
  | (k, v) :: rest =>
      match lookup_field name rest with
      | Some v' => Some v'
      | None => if String.eqb k name then Some v else None
      end
  end.

(** The property [name] of a value other than [null]: [undefined] on
    what has no such property. *)
Definition property (item : json) (name : string) : value :=
  match item with
  | JObj fields => lookup_field name fields
  | _ => None
  end.

(** [item.name]: a TypeError on [null]. *)
Definition get (item : json) (name : string) : M value :=
  match item with
  | JNull => throw (Error "TypeError")
  | _ => ret (property item name)
  end.

Definition truthy (v : value) : bool :=
  match v with
  | None | Some JNull => false
  | Some (JBool b) => b
  | Some (JNum q) => negb (Qeq_bool q 0)
  | Some (JStr s) => negb (String.eqb s "")
  | Some _ => true
  end.

(** [v || d] *)
Definition or_else (v : value) (d : json) : value :=
  if truthy v then v else Some d.

(** The object literal built for one item. *)
Record mapped := Mapped {
  m_transactionId : value;
  m_productId : value;
  m_userId : value;
  m_amount : value;
  m_date : option Z;
  m_title : value;
  m_description : value;
  m_price : value;
  m_category : value
}.

Definition map_item (item : json) : M mapped :=
  transaction_id <- get item "transaction_id" ;;
  product_id <- get item "product_id" ;;
  user_id <- get item "user_id" ;;
  amount_ <- get item "amount" ;;
  date_ <- get item "date" ;;
  title_ <- get item "title" ;;
  description_ <- get item "description" ;;
  price_ <- get item "price" ;;
  category_ <- get item "category" ;;
  ret (Mapped transaction_id product_id user_id amount_
              (parseDate date_)
              (or_else title_ (JStr ""))
              (or_else description_ (JStr ""))
              (or_else price_ (JNum 0))
              (or_else category_ (JStr ""))).

Definition has_date (t : mapped) : bool :=
  match m_date t with Some _ => true | None => false end.

(** A schema path: null and undefined are kept as a missing field, any
    other value is cast; the outer [None] is a CastError. *)
Definition cast_path {A} (cast : json -> option A) (v : value) : option (option A) :=
  match v with
  | None | Some JNull => Some None
  | Some j => option_map Some (cast j)
  end.

(** The document Mongoose builds from an object; [sold] is not a path of
    the schema. *)
Definition cast_document (t : mapped) : option Transaction :=
  match cast_path castString (m_transactionId t),
        cast_path castString (m_productId t),
        cast_path castString (m_userId t),
        cast_path castNumber (m_amount t),
        cast_path castString (m_title t),
        cast_path castString (m_description t),
        cast_path castNumber (m_price t),
        cast_path castString (m_category t) with
  | Some tid, Some pid, Some uid, Some amt, Some ttl, Some dsc, Some prc, Some cat =>
      Some (mkTransaction tid pid uid amt (m_date t) ttl dsc prc cat None)
  | _, _, _, _, _, _, _, _ => None
  end.

Fixpoint cast_documents (ts : list mapped) : option (list Transaction) :=
  match ts with
  | [] => Some []
  | t :: ts' =>
      match cast_document t, cast_documents ts' with
      | Some d, Some ds => Some (d :: ds)
      | _, _ => None
      end
  end.

(** [insertMany]: every object is cast first; one failure and nothing is
    written. *)
Definition insertMany (ts : list mapped) : M unit :=
  logged (OpInsertMany (length ts)) (fun docs =>
    match cast_documents ts with
    | Some ds => (Returned tt, (docs ++ ds)%list)
    | None => (Thrown (Error "ValidationError"), docs)
    end).

(** [axios.get]: [None] when the request fails. *)
Definition axios_get (upstream : option json) : M json :=
  match upstream with
  | Some data => ret data
  | None => throw (Error "AxiosError")
  end.

Definition initialize (upstream : option json) : M response :=
  try_catch
    (data <- axios_get upstream ;;
     match data with
     | JArr items =>
         deleteMany (And []) ;;;
         mappedItems <- mapM map_item items ;;
         let transactions := List.filter has_date mappedItems in
         insertMany transactions ;;;
         respond 200 (Message "Database initialized successfully")
     | _ => respond 400 (Message "Invalid data format")
     end)
    (fun error => respond 500 (Message "Failed to initialize database")).

(** *** GET /transactions *)

Definition search_query (search : string) : filter :=
  let clauses := [TitleRegex search; DescriptionRegex search] in
  let n := parseFloat fl search in
  Or (if negb (isNaN n) && isFinite n then (clauses ++ [PriceEq n])%list else clauses).

Definition transactions (q : query) : M response :=
  try_catch
    (let page := default "1" (q !! "page") in
     let perPage := default "10" (q !! "perPage") in
     let search := default "" (q !! "search") in
     match parseInt page, parseInt perPage with
     | Some pageNumber, Some perPageNumber =>
         let query := search_query search in
         transactions <- find query ((pageNumber - 1) * perPageNumber) perPageNumber ;;
         totalCount <- countDocuments query ;;
         respond 200
           (TransactionsPage transactions totalCount
              (Math_ceil (divide (Z.of_nat totalCount) perPageNumber))
              pageNumber perPageNumber)
     | _, _ => respond 400 (Message "Invalid pagination parameters")
     end)
    (fun error =>
       respond 500 (Message ("Failed to list transactions: " ++ message error))).

(** *** GET /statistics *)

Definition statistics (q : query) : M response :=
  try_catch
    (match parseInt (param q "month"), parseInt (param q "year") with
     | Some monthNumber, Some yearNumber =>
         if (monthNumber <? 1) || (12 <? monthNumber)
         then respond 400 (Message "Invalid month or year")
         else
           stats <- aggregate (And [month_window yearNumber monthNumber]) Stage.facet ;;
           match stats with
           | result :: _ =>
               respond 200
                 (Statistics
                    (or_zero (head (Stage.totalSaleAmount result)))
                    (or_zero_nat (head (Stage.totalSoldItems result)))
                    (or_zero_nat (head (Stage.totalNotSoldItems result))))
           | [] => throw (Error "TypeError")
           end
     | _, _ => respond 400 (Message "Invalid month or year")
     end)
    (fun error => respond 500 (Message "Failed to fetch statistics")).

(** *** GET /price-range

    [getFullYear] is the year [new Date().getFullYear()] reads from the
    clock while the request is served. *)

Definition count_band (window : clause) (range : band) : M (string * nat) :=
  count <- countDocuments
             (And [window; PriceBetween (Fin (inject_Z (min range))) (band_max range)]) ;;
  ret (band_label range, count).

Definition price_range (getFullYear : Z) (q : query) : M response :=
  try_catch
    (match parseInt (param q "month") with
     | Some monthNumber =>
         if (monthNumber <? 1) || (12 <? monthNumber)
         then respond 400 (Message "Invalid month")
         else
           rangeCounts <- mapM (count_band (month_window getFullYear monthNumber))
                               priceRanges ;;
           respond 200 (PriceRange rangeCounts)
     | None => respond 400 (Message "Invalid month")
     end)
    (fun error => respond 500 (Message "Failed to fetch price range data")).

(** *** GET /category-stats *)

Definition category_stats (getFullYear : Z) (q : query) : M response :=
  try_catch
    (match parseInt (param q "month") with
     | Some monthNumber =>
         if (monthNumber <? 1) || (12 <? monthNumber)
         then respond 400 (Message "Invalid month")
         else
           categoryStats <-
             aggregate (And [month_window getFullYear monthNumber])
               (fun docs => Stage.project_category (Stage.group_by_category docs)) ;;
           respond 200 (CategoryStats categoryStats)
     | None => respond 400 (Message "Invalid month")
     end)
    (fun error => respond 500 (Message "Failed to fetch category stats")).

End Handlers.

(** The routes registered with [app.get]. *)
Inductive route :=
| GET_initialize
| GET_transactions
| GET_statistics
| GET_price_range
| GET_category_stats.

(** What a request meets outside the collection: the answer of the
    upstream source and the year on the clock. *)
Record environment := Environment { upstream : option json; getFullYear : Z }.

Definition app `{Platform} (env : environment) (r : route) (q : query) : M response :=
  match r with
  | GET_initialize => initialize (upstream env)
  | GET_transactions => transactions q
  | GET_statistics => statistics q
  | GET_price_range => price_range (getFullYear env) q
  | GET_category_stats => category_stats (getFullYear env) q
  end.

(** Running a handler on a collection: the response, the collection left
    behind and the calls made. *)
Definition run (h : M response) (docs : list Transaction)
  : outcome response * world := h (World docs []).

(** ** Vocabulary of the specification *)
Module Spec.

Definition count_where (p : Transaction -> bool) (docs : list Transaction) : nat :=
  length (select p docs).

(** The date of [d] lies in [[start, stop)]. *)
Definition in_window (w : Z * Z) (d : Transaction) : bool :=
  on_field (date d) (fun t => (w.1 <=? t) && (t <? w.2)).

(** The price of [d] lies in the band, both ends included. *)
Definition in_band (b : band) (d : Transaction) : bool :=
  on_field (price d)
    (fun p => Qle_bool (inject_Z (min b)) p &&
              match max b with
              | Some hi => Qle_bool p (inject_Z hi)
              | None => true
              end).

Definition in_some_band (d : Transaction) : bool :=
  existsb (fun b => in_band b d) priceRanges.

(** The row of a band: its label and the number of documents of the
    window [w] whose price lies in it. *)
Definition band_row (w : Z * Z) (docs : list Transaction) (b : band) : string * nat :=
  (band_label b, count_where (fun d => in_window w d && in_band b d) docs).

(** The number of bands in which the price of [d] lies. *)
Definition hits (bands : list band) (d : Transaction) : nat :=
  length (List.filter (fun b => in_band b d) bands).

(** The price of [d] lies in [[0, ∞)]. *)
Definition price_nonneg (d : Transaction) : bool :=
  on_field (price d) (Qle_bool 0).

(** The price of [d] is a whole number. *)
Definition price_integral (d : Transaction) : bool :=
  on_field (price d) (fun p => Qeq_bool p (inject_Z (Qfloor p))).

(** Sum of the counts of a result. *)
Definition sum_counts {A} (rows : list (A * nat)) : nat :=
  foldr (fun row acc => row.2 + acc)%nat 0%nat rows.

(** Each band ends below the start of every band after it. *)
Fixpoint separated (bands : list band) : bool :=
  match bands with
  | [] => true
  | b :: rest =>
      match max b with
      | Some hi => forallb (fun b' => hi <? min b') rest
      | None => match rest with [] => true | _ => false end
      end && separated rest
  end.

(** The [sold] flag of [d] is set, and is [b]. *)
Definition sold_is (b : bool) (d : Transaction) : bool :=
  bool_decide (sold d = Some b).

(** The category of [d] is [c]. *)
Definition category_is (c : option string) (d : Transaction) : bool :=
  bool_decide (category d = c).

Definition is_null (item : json) : bool :=
  match item with JNull => true | _ => false end.


(** An integer that a Number holds exactly, as every integer between it
    and zero. *)
Definition held_exactly (n : Z) : Prop := Z.abs n <= 2 ^ 53.

(** The string is an integer literal: an optional sign and decimal
    digits, nothing before, nothing after. *)
Definition integer_literal (s : string) : bool :=
  let '(_, body) := Lex.take_sign (Lex.chars s) in
  match body with
  | [] => false
  | _ :: _ => forallb Lex.is_digit body
  end.

(** The number that [parseInt] reads in the string carries a minus sign. *)
Definition minus_sign (s : string) : bool :=
  (Lex.take_sign (Lex.trim_start (Lex.chars s))).1.

(** The three-way disjunction of the search: the title contains the
    string, or the description does, or the string parses to a finite
    number and the price is that number. *)
Definition search_matches (fl : Q -> number) (s : string) (d : Transaction) : Prop :=
  (exists t, title d = Some t /\ Regex.ci_contains t s) \/
  (exists t, description d = Some t /\ Regex.ci_contains t s) \/
  (exists n p, parseFloat fl s = Fin n /\ price d = Some p /\ (p == n)%Q).

(** [parseInt] finds no integer at the head of the parameter: it gives
    NaN. *)
Definition reads_as_NaN (q : query) (name : string) : Prop :=
  parseInt (param q name) = None.

(** The [month] parameter parses to an integer outside 1..12. *)
Definition month_out_of_range (q : query) : Prop :=
  exists m, parseInt (param q "month") = Some m /\ (m < 1 \/ 12 < m).

(** The requests that a route with a [month] parameter is to refuse. *)
Definition invalid_month_request (r : route) (q : query) : Prop :=
  match r with
  | GET_statistics =>
      reads_as_NaN q "month" \/ month_out_of_range q \/ reads_as_NaN q "year"
  | GET_price_range | GET_category_stats =>
      reads_as_NaN q "month" \/ month_out_of_range q
  | _ => False
  end.

Definition invalid_month_message (r : route) : string :=
  match r with
  | GET_statistics => "Invalid month or year"
  | _ => "Invalid month"
  end.

(** [k] is the ceiling of [a / b]. *)
Definition is_ceiling (k a b : Z) : Prop := (k - 1) * b < a <= k * b.

Section Windows.
Context {platform : Platform}.

(** A local time value as the instant the query carries. *)
Definition instant (t : Z) : Z := bson (DateTime.TimeClip (UTC t)).

(** From the first instant of month [m] of year [y] to the first
    instant of the month after. *)
Definition month_bounds (y m : Z) : Z * Z :=
  (instant (DateTime.first_instant y m),
   instant (let '(y', m') := DateTime.next_month y m in
            DateTime.first_instant y' m')).

(** The item has a date that [parseDate] accepts. *)
Definition parseable (item : json) : bool :=
  match parseDate (property item "date") with Some _ => true | None => false end.

(** The [date] of the item makes a valid Date: it is null or a boolean,
    or a number of milliseconds within the range of time values, or a
    string that [Date.parse] reads, or an array or object whose string
    [Date.parse] reads.  An item without [date] has none. *)
Definition valid_date (item : json) : bool :=
  match property item "date" with
  | None => false
  | Some JNull | Some (JBool _) => true
  | Some (JNum q) => Qle_bool (Qabs q) (inject_Z 8640000000000000)
  | Some (JStr s) => bool_decide (Date_parse s <> None)
  | Some j => bool_decide (Date_parse (ObjectToString j) <> None)
  end.


(** The object that the mapping builds from an item: the source
    fields under their schema names, the date parsed, the defaults
    applied. *)
Definition mapped_of (item : json) : mapped :=
  Mapped (property item "transaction_id")
         (property item "product_id")
         (property item "user_id")
         (property item "amount")
         (parseDate (property item "date"))
         (or_else (property item "title") (JStr ""))
         (or_else (property item "description") (JStr ""))
         (or_else (property item "price") (JNum 0))
         (or_else (property item "category") (JStr "")).

(** The normalized record of an item. *)
Definition normalize (item : json) : option Transaction :=
  cast_document (mapped_of item).

(** The collection was written by calls of /initialize alone. *)
Inductive ingested : list Transaction -> Prop :=
| ingested_empty : ingested []
| ingested_initialize docs upstream :
    ingested docs ->
    ingested (collection (snd (run (initialize upstream) docs))).
End Windows.

End Spec.

(** ** Sample data *)
Module Sample.

Definition at_date (year month day : Z) : Z :=
  DateTime.MakeDate (DateTime.MakeDay year (month - 1) day) 0.

Definition doc (ttl dsc : string) (prc amt : Q) (when : Z) (cat : string)
  : Transaction :=
  mkTransaction None None None (Some amt) (Some when)
                (Some ttl) (Some dsc) (Some prc) (Some cat) None.

Definition params (l : list (string * string)) : query := list_to_map l.

(** A price between two bands. *)
Definition between_bands : Transaction :=
  doc "lamp" "desk lamp" (201 # 2) 10 (at_date 2024 5 10) "home".

Definition may_2024 : list Transaction :=
  [ doc "lamp" "desk lamp" 100 10 (at_date 2024 5 10) "home";
    doc "Bag" "leather bag" 950 20 (at_date 2024 5 31) "";
    doc "pen" "blue pen" 12 30 (at_date 2024 6 1) "office";
    doc "cup" "tea cup" 101 5 (at_date 2024 5 1) "home" ].


Definition payload_items : list json :=
  [ JObj [("transaction_id", JStr "t1"); ("date", JStr "2021-11-27T20:29:54+05:30");
          ("title", JStr "Bag"); ("price", JNum (3299 # 10)); ("amount", JNum 7)];
    JObj [("transaction_id", JStr "t2"); ("date", JStr "yesterday"); ("title", JStr "Cup")];
    JObj [("date", JStr "2022-01-05T00:00:00Z")];
    JNum 5 ].

Definition lamp : Transaction :=
  doc "lamp" "desk lamp" 100 10 (at_date 2024 5 10) "home".

(** The answer of /price-range when no document falls in any band. *)
Definition no_hits : list (string * nat) :=
  map (fun b => (band_label b, 0%nat)) priceRanges.

Definition in_2024 : environment := Environment None 2024.


(** The same over an empty collection. *)
Definition first_ingest : outcome response * world :=
  run (initialize (platform := utcPlatform) (Some (JArr payload_items))) [].

(** Requests. *)
Definition page_two : query := params [("page", "2"); ("perPage", "2"); ("search", "a")].
Definition may : query := params [("month", "5")].
Definition may_of_2024 : query := params [("month", "5"); ("year", "2024")].
Definition november_of_2021 : query := params [("month", "11"); ("year", "2021")].
Definition month_13 : query := params [("month", "13")].
Definition dot : query := params [("search", ".")].
Definition month_12_9 : query := params [("month", "12.9")].
Definition may_of_2024_75 : query := params [("month", "5"); ("year", "2024.75")].

(** A document with a price and nothing else. *)
Definition untitled : Transaction :=
  mkTransaction None None None None None None None (Some 5%Q) None None.

(** May 2024 on the platform [utcPlatform], and the documents of
    [may_2024] dated in it. *)
Definition in_may : Transaction -> bool :=
  Spec.in_window (Spec.month_bounds (platform := utcPlatform) 2024 5).

Definition of_may : list Transaction := select in_may may_2024.

Definition may_rows : list (string * nat) :=
  map (fun b => (band_label b,
                 Spec.count_where (fun d => in_may d && Spec.in_band b d) may_2024))
      priceRanges.

End Sample.

(** ** What a run shows *)
Module Observe.

(** The calls that read the collection. *)
Definition is_read (o : op) : bool :=
  match o with
  | OpFind _ _ _ | OpCountDocuments _ | OpAggregate _ => true
  | OpDeleteMany _ | OpInsertMany _ => false
  end.

(** The status of an answer; 0 stands for an exception that escapes. *)
Definition status_of (r : outcome response) : Z :=
  match r with
  | Returned resp => status resp
  | Thrown _ => 0
  end.

(** The documents of a page of /transactions. *)
Definition page_documents (r : outcome response) : list Transaction :=
  match r with
  | Returned (Response _ (TransactionsPage shown _ _ _ _)) => shown
  | _ => []
  end.

(** A computation that leaves the collection as it is and adds only reads
    to the log. *)
Definition reads {A} (m : M A) : Prop :=
  forall w,
    collection (snd (m w)) = collection w /\
    exists ops, oplog (snd (m w)) = (oplog w ++ ops)%list /\
                forallb is_read ops = true.

(** A computation whose answers, when it returns, are a 200 or a 400. *)
Definition answers (m : M response) : Prop :=
  forall w, match fst (m w) with
            | Returned resp => status resp = 200 \/ status resp = 400
            | Thrown _ => True
            end.

End Observe.

(** ** More sample data *)
Module Scenario.

(** The record of the first item of [Sample.payload_items]. *)
Definition bag_item : json :=
  JObj [("transaction_id", JStr "t1"); ("date", JStr "2021-11-27T20:29:54+05:30");
        ("title", JStr "Bag"); ("price", JNum (3299 # 10)); ("amount", JNum 7)].

Definition bag_record : Transaction :=
  mkTransaction (Some "t1") None None (Some 7%Q)
                (Some (Sample.at_date 2021 11 27 + 53994000))
                (Some "Bag") (Some "") (Some (3299 # 10)) (Some "") None.

(** An item with falsy fields. *)
Definition falsy_item : json :=
  JObj [("date", JNum 86400000); ("title", JNum 0); ("description", JNull);
        ("category", JBool false); ("price", JStr "")].

Definition falsy_record : Transaction :=
  mkTransaction None None None None (Some 86400000)
                (Some "") (Some "") (Some 0%Q) (Some "") None.

(** A payload with a null among its items. *)
Definition with_null : list json := [bag_item; JNull; falsy_item].

(** The collection written by /initialize over [Sample.payload_items]. *)
Definition stored : list Transaction := collection (snd Sample.first_ingest).

(** Requests. *)
Definition no_parameters : query := Sample.params [].
Definition per_page_0 : query := Sample.params [("perPage", "0"); ("search", "a")].
Definition page_0 : query := Sample.params [("page", "0")].

(** Page [i + 1] of the search for "a", two documents a page. *)
Definition page_of_a (i : nat) : query :=
  match i with
  | O => Sample.params [("page", "1"); ("perPage", "2"); ("search", "a")]
  | S _ => Sample.page_two
  end.

(** The documents that the search for "a" selects on [utcPlatform]. *)
Definition has_an_a : Transaction -> bool :=
  match filter_pred (platform := utcPlatform)
          (search_query (platform := utcPlatform) "a") with
  | Some p => p
  | None => fun _ => false
  end.

(** The documents that the search for "12abc" selects on [utcPlatform]. *)
Definition twelve : Transaction -> bool :=
  match filter_pred (platform := utcPlatform)
          (search_query (platform := utcPlatform) "12abc") with
  | Some p => p
  | None => fun _ => false
  end.

Definition pen : Transaction :=
  Sample.doc "pen" "blue pen" 12 30 (Sample.at_date 2024 6 1) "office".

(** May 2024 as /statistics and the other routes bound it on [utcPlatform]. *)
Definition of_may : list Transaction :=
  select (Spec.in_window
            (Spec.month_bounds (platform := utcPlatform) (DateTime.MakeFullYear 2024) 5))
         Sample.may_2024.

End Scenario.

(** * Properties *)

(** ** The runtime functions on sample inputs *)
Section Examples.

Example parseInt_prefix : parseInt "5abc" = Some 5.
Proof. reflexivity. Qed.

Example parseInt_fraction : parseInt "  -12.7" = Some (-12).
Proof. reflexivity. Qed.

Example parseInt_letters : parseInt "abc" = None.
Proof. reflexivity. Qed.

Example parseInt_missing : forall q : query, q !! "month" = None -> parseInt (param q "month") = None.
Proof. intros q H. unfold param. now rewrite H. Qed.

Example parseFloat_prefix : parseFloat Fin "12abc" = Fin 12.
Proof. reflexivity. Qed.

Example parseFloat_dot : parseFloat Fin "." = NaN.
Proof. reflexivity. Qed.

Example parseFloat_infinity : parseFloat Fin "-Infinity" = Inf true.
Proof. reflexivity. Qed.

Example compile_group :
  option_map (fun r => Regex.test r "xACd") (Regex.compile "(ab|a)c+d?") = Some true.
Proof. reflexivity. Qed.

Example compile_unclosed : Regex.compile "(" = None.
Proof. reflexivity. Qed.

Example first_of_may_2024 : DateTime.first_instant 2024 5 = 1714521600000.
Proof. reflexivity. Qed.

Example date_with_offset :
  DateTime.date_time_string (Lex.chars "2021-11-27T20:29:54+05:30") = Some 1638025194000.
Proof. reflexivity. Qed.

Example date_alone :
  DateTime.date_time_string (Lex.chars "2022-01-05") = Some 1641340800000.
Proof. reflexivity. Qed.

Example date_with_milliseconds :
  DateTime.date_time_string (Lex.chars "2022-01-05T00:00:00.250Z") = Some 1641340800250.
Proof. reflexivity. Qed.

Example date_with_expanded_year :
  DateTime.date_time_string (Lex.chars "+002022-01-05") = Some 1641340800000.
Proof. reflexivity. Qed.

Example date_beyond_range :
  DateTime.date_time_string (Lex.chars "+275760-09-14") = None.
Proof. reflexivity. Qed.

Example date_in_words : DateTime.date_time_string (Lex.chars "yesterday") = None.
Proof. reflexivity. Qed.

Example december_rolls_over :
  DateTime.MakeDay 2024 12 1 = DateTime.MakeDay 2025 0 1.
Proof. reflexivity. Qed.

Example last_label : option_map band_label (last priceRanges) = Some "901 - Infinity".
Proof. reflexivity. Qed.

End Examples.

(** ** The pattern matcher *)
Module RegexFacts.
Import Regex.

Lemma nullable_lang r : nullable r = true <-> lang r [].
Proof.
  split.
  - induction r; simpl; intros H; try discriminate.
    + constructor.
    + apply andb_true_iff in H as [H1 H2].
      apply (lang_cat r1 r2 [] []); auto.
    + apply orb_true_iff in H as [H|H]; [apply lang_alt_l | apply lang_alt_r]; auto.
    + constructor.
  - intros H. remember [] as w eqn:Hw. induction H; simpl; try discriminate; auto.
    + apply app_eq_nil in Hw as [-> ->]. rewrite IHlang1, IHlang2; auto.
    + rewrite IHlang; auto.
    + rewrite IHlang; auto. apply orb_true_r.
Qed.

Lemma lang_deriv c r w : lang (deriv c r) w -> lang r (c :: w).
Proof.
  revert w. induction r; simpl; intros w H.
  - inversion H.
  - inversion H.
  - destruct (ci_eqb c0 c) eqn:E; inversion H; subst. now constructor.
  - destruct (is_newline c) eqn:E; inversion H; subst. now constructor.
  - destruct (nullable r1) eqn:N.
    + inversion H as [| | | | ? ? ? H1 | ? ? ? H2 | |]; subst.
      * inversion H1; subst.
        apply (lang_cat r1 r2 (c :: u) v); auto.
      * apply (lang_cat r1 r2 [] (c :: w)); auto. now apply nullable_lang.
    + inversion H; subst.
      apply (lang_cat r1 r2 (c :: u) v); auto.
  - inversion H; subst; [apply lang_alt_l | apply lang_alt_r]; auto.
  - inversion H; subst.
    apply (lang_star_app r (c :: u) v); auto.
Qed.

Lemma deriv_lang c r w : lang r (c :: w) -> lang (deriv c r) w.
Proof.
  intros H. remember (c :: w) as s eqn:Hs. revert w Hs.
  induction H; intros w Hs; simpl; try discriminate.
  - injection Hs as E1 E2. subst. rewrite H. constructor.
  - injection Hs as E1 E2. subst. rewrite H. constructor.
  - destruct u as [|x u'].
    + simpl in Hs. subst v.
      assert (N : nullable r1 = true) by now apply nullable_lang.
      rewrite N. apply lang_alt_r. now apply IHlang2.
    + simpl in Hs. injection Hs as E1 E2. subst.
      assert (L : lang (Cat (deriv c r1) r2) (u' ++ v)) by (constructor; auto).
      destruct (nullable r1); [now apply lang_alt_l | exact L].
  - apply lang_alt_l; auto.
  - apply lang_alt_r; auto.
  - destruct u as [|x u'].
    + simpl in Hs. now apply IHlang2.
    + simpl in Hs. injection Hs as E1 E2. subst. constructor; auto.
Qed.

Lemma match_prefix_spec r s :
  match_prefix r s = true <-> exists u v, s = (u ++ v)%list /\ lang r u.
Proof.
  revert r. induction s as [|c s IH]; intros r; simpl.
  - rewrite orb_false_r. split.
    + intros N. exists [], []. split; auto. now apply nullable_lang.
    + intros (u & v & E & L). symmetry in E. apply app_eq_nil in E as [-> ->].
      now apply nullable_lang.
  - rewrite orb_true_iff, IH. split.
    + intros [N | (u & v & -> & L)].
      * exists [], (c :: s). split; auto. now apply nullable_lang.
      * exists (c :: u), v. split; auto. now apply lang_deriv.
    + intros (u & v & E & L). destruct u as [|x u].
      * left. now apply nullable_lang.
      * simpl in E. injection E as E1 E2. subst. right. exists u, v. split; auto.
        now apply deriv_lang.
Qed.

Lemma search_spec r s :
  search r s = true <->
  exists a u b, s = (a ++ u ++ b)%list /\ lang r u.
Proof.
  induction s as [|c s IH].
  - simpl. rewrite !orb_false_r. split.
    + intros N. exists [], [], []. split; auto. now apply nullable_lang.
    + intros (a & u & b & E & L). symmetry in E.
      apply app_eq_nil in E as [-> E]. apply app_eq_nil in E as [-> ->].
      now apply nullable_lang.
  - change (search r (c :: s)) with (match_prefix r (c :: s) || search r s).
    rewrite orb_true_iff, IH, match_prefix_spec. split.
    + intros [(u & v & E & L) | (a & u & b & -> & L)].
      * exists [], u, v. split; auto.
      * exists (c :: a), u, b. split; auto.
    + intros (a & u & b & E & L). destruct a as [|x a].
      * left. exists u, b. split; auto.
      * simpl in E. injection E as E1 E2. subst. right. exists a, u, b. split; auto.
Qed.

Lemma literal_lang p w : lang (literal p) w <-> ci_eq p w.
Proof.
  unfold ci_eq. revert w. induction p as [|a p IH]; intros w; simpl.
  - split.
    + intros H. inversion H. constructor.
    + intros H. inversion H. constructor.
  - split.
    + intros H. inversion H as [| | |? ? u v H1 H2| | | |]; subst.
      inversion H1; subst. simpl. constructor; auto. now apply IH.
    + intros H. inversion H as [|? c ? w' Hc Hw]; subst.
      apply (lang_cat (Chr a) (literal p) [c] w').
      * now constructor.
      * now apply IH.
Qed.

Lemma not_meta c :
  is_meta c = false ->
  Ascii.eqb c "(" = false /\ Ascii.eqb c ")" = false /\ Ascii.eqb c "|" = false /\
  is_quantifier c = false /\ Ascii.eqb c "\" = false /\ Ascii.eqb c "." = false.
Proof.
  intros H. unfold is_quantifier.
  repeat split;
    repeat match goal with
           | |- (_ || _)%bool = false => apply orb_false_intro
           | |- Ascii.eqb c ?x = false =>
               destruct (Ascii.eqb_spec c x) as [->|]; [discriminate H | reflexivity]
           end.
Qed.

Lemma read_plain p acc q :
  Forall (fun c => is_meta c = false) p ->
  read p (Frame [] acc) [] q = Some (cat_of (rev (map Chr p) ++ acc)%list).
Proof.
  intros H. revert acc q. induction H as [|c p Hc Hp IH]; intros acc q.
  - reflexivity.
  - destruct (not_meta c Hc) as (E1 & E2 & E3 & E4 & E5 & E6).
    simpl. rewrite E1, E2, E3, E4, E5, E6, Hc. unfold push. simpl.
    rewrite IH. now rewrite <- app_assoc.
Qed.

Lemma cat_of_rev l : cat_of (rev l) = fold_right (fun a acc => Cat a acc) Eps l.
Proof. unfold cat_of. now rewrite <- fold_left_rev_right, rev_involutive. Qed.

Lemma compile_plain s : plain s -> compile s = Some (literal (Lex.chars s)).
Proof.
  intros H. unfold compile, empty_frame.
  rewrite (read_plain _ [] false H).
  rewrite app_nil_r, cat_of_rev. f_equal. unfold literal. clear H.
  induction (Lex.chars s); simpl; congruence.
Qed.

Lemma test_literal p t :
  test (literal (Lex.chars p)) t = true <-> ci_contains t p.
Proof.
  unfold test, ci_contains. rewrite search_spec.
  split; intros (a & u & b & E & L); exists a, u, b; split; auto;
    now apply literal_lang.
Qed.

(** A character contains itself only where it occurs. *)
Lemma ci_contains_single t c :
  ci_contains t (String c "") -> exists x, In x (Lex.chars t) /\ ci_eqb c x = true.
Proof.
  intros (a & w & b & E & H). unfold ci_eq in H. simpl in H.
  inversion H as [|? x ? w' Hx Hw]; subst. exists x. split; auto.
  rewrite E. apply in_or_app. right. now left.
Qed.

End RegexFacts.

(** ** Running the calls on the model *)
Section Calls.
Context {platform : Platform}.

Lemma countDocuments_run f p w :
  filter_pred f = Some p ->
  countDocuments f w =
    (Returned (length (select p (collection w))),
     World (collection w) (oplog w ++ [OpCountDocuments f])%list).
Proof. intros E. unfold countDocuments, logged. now rewrite E. Qed.

Lemma aggregate_run {A} f (stages : list Transaction -> A) p w :
  filter_pred f = Some p ->
  aggregate f stages w =
    (Returned (stages (select p (collection w))),
     World (collection w) (oplog w ++ [OpAggregate f])%list).
Proof. intros E. unfold aggregate, logged. now rewrite E. Qed.

Lemma find_run f p skip limit w :
  filter_pred f = Some p -> 0 <= skip -> 0 < limit ->
  find f skip limit w =
    (Returned (take (Z.to_nat limit) (drop (Z.to_nat skip) (select p (collection w)))),
     World (collection w) (oplog w ++ [OpFind f skip limit])%list).
Proof.
  intros E Hs Hl. unfold find, logged. rewrite E.
  destruct (Z.ltb_spec skip 0); [lia|].
  destruct (Z.eqb_spec limit 0); [lia|].
  now rewrite Z.abs_eq by lia.
Qed.

Lemma find_rejected f skip limit w :
  filter_pred f = None ->
  find f skip limit w =
    (Thrown rejected, World (collection w) (oplog w ++ [OpFind f skip limit])%list).
Proof. intros E. unfold find, logged. now rewrite E. Qed.

(** A month window is a date range, which the store always accepts. *)
Lemma month_window_pred y m :
  filter_pred (And [month_window y m]) =
    Some (fun d => forallb (fun p => p d)
                     [fun d => Spec.in_window (bson (newDate y (m - 1)), bson (newDate y m)) d]).
Proof. reflexivity. Qed.

End Calls.

(** ** Validation of the parameters *)
Section Validation.
Context {platform : Platform}.

(** C2. When the upstream payload is not an array, /initialize answers
    400, the collection is what it was, and no call reaches the model:
    neither [deleteMany] nor [insertMany]. *)
Theorem initialize_rejects_non_array (data : json) (docs : list Transaction) :
  isArray data = false ->
  run (initialize (Some data)) docs =
    (Returned (Response 400 (Message "Invalid data format")), World docs []).
Proof. intros H. destruct data; try reflexivity. discriminate H. Qed.

(** C8. /transactions answers 400 and makes no call on the model when
    [page] or [perPage] does not parse as an integer; otherwise its first
    call is the [find] of the search, with the skip and the limit of the
    page. *)
Theorem transactions_validation (q : query) (docs : list Transaction) :
  match parseInt (default "1" (q !! "page")),
        parseInt (default "10" (q !! "perPage")) with
  | Some pageNumber, Some perPageNumber =>
      exists rest,
        oplog (snd (run (transactions q) docs)) =
          OpFind (search_query (default "" (q !! "search")))
                 ((pageNumber - 1) * perPageNumber) perPageNumber :: rest
  | _, _ =>
      run (transactions q) docs =
        (Returned (Response 400 (Message "Invalid pagination parameters")),
         World docs [])
  end.
Proof.
  unfold run, transactions, try_catch.
  destruct (parseInt (default "1" (q !! "page"))) as [p|];
    destruct (parseInt (default "10" (q !! "perPage"))) as [n|]; try reflexivity.
  set (f := search_query _). unfold bind at 1.
  cbv beta iota zeta delta [find logged collection oplog].
  destruct (filter_pred f) as [pred|] eqn:E.
  - destruct ((p - 1) * n <? 0).
    + eexists. reflexivity.
    + unfold bind at 1. rewrite (countDocuments_run _ pred _ E).
      eexists. reflexivity.
  - eexists. reflexivity.
Qed.

Lemma out_of_range (m : Z) : m < 1 \/ 12 < m -> (m <? 1) || (12 <? m) = true.
Proof. intros H. apply orb_true_iff. now rewrite !Z.ltb_lt. Qed.

(** The requests that /statistics refuses. *)
Lemma statistics_rejects (q : query) (docs : list Transaction) :
  Spec.invalid_month_request GET_statistics q ->
  run (statistics q) docs =
    (Returned (Response 400 (Message "Invalid month or year")), World docs []).
Proof.
  unfold Spec.invalid_month_request, Spec.reads_as_NaN, Spec.month_out_of_range.
  intros H. unfold run, statistics, try_catch.
  destruct (parseInt (param q "month")) as [m|]; [|reflexivity].
  destruct (parseInt (param q "year")) as [y|]; [|reflexivity].
  destruct H as [H | [(m' & E & H) | H]]; try discriminate.
  injection E as <-. now rewrite (out_of_range m H).
Qed.

(** C9, amended. /statistics, /price-range and /category-stats answer
    400, leave the collection as it was and make no call on the model when
    [parseInt] reads NaN in [month] or reads an integer outside 1..12, and
    so does /statistics when [parseInt] reads NaN in [year].  ([parseInt]
    reads the integer at the head of the string: 12 in "12.9", 5 in
    "5abc".) *)
Theorem month_validation (env : environment) (r : route) (q : query)
    (docs : list Transaction) :
  Spec.invalid_month_request r q ->
  run (app env r q) docs =
    (Returned (Response 400 (Message (Spec.invalid_month_message r))), World docs []).
Proof.
  destruct r; cbn [app Spec.invalid_month_request Spec.invalid_month_message];
    try contradiction.
  - apply statistics_rejects.
  - unfold Spec.reads_as_NaN, Spec.month_out_of_range. intros H.
    unfold run, price_range, try_catch.
    destruct (parseInt (param q "month")) as [m|]; [|reflexivity].
    destruct H as [H | (m' & E & H)]; try discriminate.
    injection E as <-. now rewrite (out_of_range m H).
  - unfold Spec.reads_as_NaN, Spec.month_out_of_range. intros H.
    unfold run, category_stats, try_catch.
    destruct (parseInt (param q "month")) as [m|]; [|reflexivity].
    destruct H as [H | (m' & E & H)]; try discriminate.
    injection E as <-. now rewrite (out_of_range m H).
Qed.

End Validation.

(** ** GET /transactions *)
Section Transactions.
Context {platform : Platform}.

Lemma ceil_divide (a b : Z) :
  0 < b ->
  exists k, Math_ceil (divide a b) = Fin (inject_Z k) /\ Spec.is_ceiling k a b.
Proof.
  intros Hb. unfold divide. destruct (Z.eqb_spec b 0); [lia|].
  exists (- ((- a) / b)). split.
  - simpl. do 2 f_equal. unfold Qceiling. f_equal.
    rewrite Zdiv_Qdiv. apply Qfloor_comp.
    rewrite inject_Z_opp. unfold Qdiv. ring.
  - unfold Spec.is_ceiling.
    pose proof (Z.div_mod (- a) b ltac:(lia)) as D.
    pose proof (Z.mod_pos_bound (- a) b Hb) as B. nia.
Qed.

(** C4. With [page] and [perPage] at least 1, and a search that the store
    accepts as a pattern, /transactions answers with the matches left after
    skipping [(page - 1) * perPage] of them, cut at [perPage]: at most
    [perPage] documents; [totalCount] is the number of all matches, and
    [totalPages] is the ceiling of [totalCount / perPage].  The page, the
    page size, the skip and the size of the collection are integers that a
    Number holds exactly. *)
Theorem transactions_page (q : query) (docs : list Transaction) (page perPage : Z)
    (matches : Transaction -> bool) :
  parseInt (default "1" (q !! "page")) = Some page ->
  parseInt (default "10" (q !! "perPage")) = Some perPage ->
  1 <= page -> 1 <= perPage ->
  Spec.held_exactly page -> Spec.held_exactly perPage ->
  Spec.held_exactly ((page - 1) * perPage) ->
  Spec.held_exactly (Z.of_nat (length docs)) ->
  filter_pred (search_query (default "" (q !! "search"))) = Some matches ->
  let all := select matches docs in
  let shown := take (Z.to_nat perPage) (drop (Z.to_nat ((page - 1) * perPage)) all) in
  exists totalPages,
    run (transactions q) docs =
      (Returned (Response 200
         (TransactionsPage shown (length all) (Fin (inject_Z totalPages))
                           page perPage)),
       World docs [OpFind (search_query (default "" (q !! "search")))
                          ((page - 1) * perPage) perPage;
                   OpCountDocuments (search_query (default "" (q !! "search")))])
    /\ Z.of_nat (length shown) <= perPage
    /\ Spec.is_ceiling totalPages (Z.of_nat (length all)) perPage.
Proof.
  intros Ep En Hp Hn _ _ _ _ E. unfold run, transactions, try_catch. rewrite Ep, En.
  revert E. set (f := search_query _). intros E.
  set (all := select matches docs).
  set (shown := take _ _).
  destruct (ceil_divide (Z.of_nat (length all)) perPage ltac:(lia)) as (k & Ek & Hk).
  exists k. split; [|split].
  - unfold bind at 1. rewrite (find_run f matches) by (auto; nia).
    unfold bind at 1. rewrite (countDocuments_run f matches) by auto.
    simpl collection. fold all. fold shown. unfold respond, ret.
    now rewrite Ek.
  - subst shown. rewrite length_take. lia.
  - exact Hk.
Qed.

Lemma number_eqb_Fin p n : number_eqb (Fin p) (Fin n) = true <-> (p == n)%Q.
Proof. simpl. apply Qeq_bool_iff. Qed.

Lemma on_field_true {A} (field : option A) (p : A -> bool) :
  on_field field p = true <-> exists x, field = Some x /\ p x = true.
Proof.
  destruct field as [x|]; simpl.
  - split; [intros H; exists x; auto | now intros (y & [= ->] & H)].
  - split; [discriminate | now intros (y & [=] & _)].
Qed.

(** C5, amended. For a search string without any of the pattern
    characters [\ ^ $ . | ? * + ( ) [ ] { }], the filter of /transactions
    matches exactly the documents whose title or description contains the
    string, letter case ignored, or, when [parseFloat] of the string is a
    finite number, whose price is that number; the empty search matches
    every document that has a title or a description. *)
Theorem search_plain (s : string) :
  Regex.plain s ->
  exists matches,
    filter_pred (search_query s) = Some matches /\
    (forall d, matches d = true <-> Spec.search_matches fl s d) /\
    (s = "" -> forall d, title d <> None \/ description d <> None -> matches d = true).
Proof.
  intros Hs.
  assert (Ht : forall field : option string,
             on_field field (Regex.test (Regex.literal (Lex.chars s))) = true <->
             exists t, field = Some t /\ Regex.ci_contains t s).
  { intros field. rewrite on_field_true.
    split; intros (t & E & H); exists t; split; auto;
      now apply RegexFacts.test_literal. }
  assert (Hspec : exists matches,
             filter_pred (search_query s) = Some matches /\
             forall d, matches d = true <-> Spec.search_matches fl s d).
  { unfold search_query, Spec.search_matches.
    destruct (parseFloat fl s) as [| neg | n] eqn:En; simpl;
      unfold regex_matcher; rewrite (RegexFacts.compile_plain s Hs); eexists; (split; [reflexivity|]);
      intros d; simpl; rewrite ?orb_false_r, !orb_true_iff, !Ht.
    - split; [intros [H|H]; auto | intros [H|[H|(n & p & [=] & _)]]; auto].
    - split; [intros [H|H]; auto | intros [H|[H|(n & p & [=] & _)]]; auto].
    - rewrite on_field_true. split.
      + intros [H|[H|(p & Ep & H)]]; auto.
        right. right. exists n, p. repeat split; auto. now apply number_eqb_Fin.
      + intros [H|[H|(n' & p & [= <-] & Ep & H)]]; auto.
        right. right. exists p. split; auto. now apply number_eqb_Fin. }
  destruct Hspec as (matches & E & H). exists matches. repeat split; auto; try apply H.
  intros -> d Hd. apply H. unfold Spec.search_matches.
  assert (C : forall t, Regex.ci_contains t "").
  { intros t. exists [], [], (Lex.chars t). split; [reflexivity | constructor]. }
  destruct (title d) as [t|]; [left; eauto|].
  destruct (description d) as [t|]; [right; left; eauto|].
  destruct Hd; congruence.
Qed.

End Transactions.

(** ** The month window *)
Section Windows.
Context {platform : Platform}.

Lemma MakeDay_month_start (y m : Z) :
  1 <= m <= 12 ->
  DateTime.MakeDate (DateTime.MakeDay y (m - 1) 1) 0 = DateTime.first_instant y m.
Proof.
  intros Hm. unfold DateTime.MakeDate, DateTime.MakeDay, DateTime.first_instant.
  rewrite (Z.div_small (m - 1) 12), (Z.mod_small (m - 1) 12) by lia.
  rewrite !Z.add_0_r. lia.
Qed.

Lemma MakeDay_next_month (y m : Z) :
  1 <= m <= 12 ->
  DateTime.MakeDate (DateTime.MakeDay y m 1) 0 =
    (let '(y', m') := DateTime.next_month y m in DateTime.first_instant y' m').
Proof.
  intros Hm. unfold DateTime.next_month.
  destruct (Z.eqb_spec m 12) as [->|Hne].
  - unfold DateTime.MakeDate, DateTime.MakeDay, DateTime.first_instant.
    change (12 / 12) with 1. change (12 mod 12) with 0. change (1 - 1) with 0. lia.
  - rewrite <- (MakeDay_month_start y (m + 1)) by lia.
    now replace (m + 1 - 1) with m by lia.
Qed.

(** The bounds that a handler computes for month [m] are those of the
    month of the year that the Date constructor reads. *)
Lemma month_window_bounds (year m : Z) :
  1 <= m <= 12 ->
  month_window year m =
    DateRange (Spec.month_bounds (DateTime.MakeFullYear year) m).1
              (Spec.month_bounds (DateTime.MakeFullYear year) m).2.
Proof.
  intros Hm. unfold month_window, newDate, Spec.month_bounds, Spec.instant. simpl.
  now rewrite MakeDay_month_start, MakeDay_next_month.
Qed.

(** A local time whose UTC value a Date can hold is that value in a query. *)
Lemma instant_representable (t : Z) :
  Z.abs (UTC t) <= 8640000000000000 -> Spec.instant t = UTC t.
Proof.
  intros H. unfold Spec.instant, DateTime.TimeClip.
  destruct (Z.leb_spec (Z.abs (UTC t)) 8640000000000000); [reflexivity | lia].
Qed.

Lemma MakeFullYear_id (y : Z) : ~ (0 <= y <= 99) -> DateTime.MakeFullYear y = y.
Proof.
  intros H. unfold DateTime.MakeFullYear.
  destruct (Z.leb_spec 0 y); destruct (Z.leb_spec y 99); simpl; auto; lia.
Qed.

Lemma month_window_accepted (year m : Z) (rest : list clause) ps :
  1 <= m <= 12 ->
  clause_preds rest = Some ps ->
  filter_pred (And (month_window year m :: rest)) =
    Some (fun d => Spec.in_window (Spec.month_bounds (DateTime.MakeFullYear year) m) d
                   && forallb (fun p => p d) ps).
Proof.
  intros Hm E. rewrite month_window_bounds by auto. simpl. now rewrite E.
Qed.

End Windows.

(** ** GET /price-range *)
Section PriceRange.
Context {platform : Platform}.

Lemma band_clause (b : band) (d : Transaction) :
  on_field (price d)
    (fun p => number_le (Fin (inject_Z (min b))) (Fin p) && number_le (Fin p) (band_max b))
  = Spec.in_band b d.
Proof.
  unfold Spec.in_band, band_max. destruct (price d) as [p|]; simpl; auto.
  destruct (max b); reflexivity.
Qed.

Lemma count_band_run (year m : Z) (b : band) (w : world) :
  1 <= m <= 12 ->
  count_band (month_window year m) b w =
    (Returned (Spec.band_row (Spec.month_bounds (DateTime.MakeFullYear year) m) (collection w) b),
     World (collection w)
       (oplog w ++
        [OpCountDocuments
           (And [month_window year m;
                 PriceBetween (Fin (inject_Z (min b))) (band_max b)])])%list).
Proof.
  intros Hm. unfold count_band, bind.
  erewrite countDocuments_run by (apply month_window_accepted; [exact Hm | reflexivity]).
  unfold ret, Spec.band_row, Spec.count_where, select.
  erewrite filter_ext; [reflexivity|].
  intros d. cbn [forallb]. now rewrite andb_true_r, band_clause.
Qed.

Lemma mapM_count_band (year m : Z) (bands : list band) (w : world) :
  1 <= m <= 12 ->
  mapM (count_band (month_window year m)) bands w =
    (Returned (map (Spec.band_row (Spec.month_bounds (DateTime.MakeFullYear year) m)
                             (collection w)) bands),
     World (collection w)
       (oplog w ++
        map (fun b => OpCountDocuments
                        (And [month_window year m;
                              PriceBetween (Fin (inject_Z (min b))) (band_max b)]))
            bands)%list).
Proof.
  intros Hm. revert w. induction bands as [|b bands IH]; intros w.
  - simpl. unfold ret. rewrite app_nil_r. now destruct w.
  - simpl. unfold bind at 1. rewrite count_band_run by exact Hm.
    unfold bind at 1. rewrite IH. simpl. unfold ret.
    now rewrite <- app_assoc.
Qed.

(** *** Adding up the bands *)

Lemma above_band (b b' : band) (d : Transaction) hi :
  max b = Some hi -> hi < min b' -> Spec.in_band b d = true -> Spec.in_band b' d = false.
Proof.
  unfold Spec.in_band. intros E Hlt. rewrite E.
  destruct (price d) as [p|]; simpl; [|discriminate].
  intros H. apply andb_true_iff in H as [_ H]. apply Qle_bool_iff in H.
  apply andb_false_iff. left. apply not_true_is_false. intros H'.
  apply Qle_bool_iff in H'. rewrite Zlt_Qlt in Hlt.
  apply (Qlt_irrefl p). eapply Qle_lt_trans; [exact H|].
  eapply Qlt_le_trans; [exact Hlt | exact H'].
Qed.

Lemma hits_separated (bands : list band) (d : Transaction) :
  Spec.separated bands = true ->
  Spec.hits bands d = if existsb (fun b => Spec.in_band b d) bands then 1%nat else 0%nat.
Proof.
  unfold Spec.hits. induction bands as [|b rest IH]; simpl; [reflexivity|].
  intros H. apply andb_true_iff in H as [Hb Hrest]. specialize (IH Hrest).
  destruct (Spec.in_band b d) eqn:Eb; simpl; [|exact IH].
  rewrite IH. replace (existsb _ rest) with false; [reflexivity|].
  symmetry. apply not_true_is_false. intros Hex.
  apply existsb_exists in Hex as (b' & Hin & Hb').
  destruct (max b) as [hi|] eqn:Emax.
  - rewrite forallb_forall in Hb. specialize (Hb b' Hin). apply Z.ltb_lt in Hb.
    rewrite (above_band b b' d hi Emax Hb Eb) in Hb'. discriminate.
  - destruct rest; [destruct Hin | discriminate].
Qed.

Lemma sum_counts_rows (w : Z * Z) (bands : list band) (docs : list Transaction) :
  Spec.sum_counts (map (Spec.band_row w docs) bands) =
  Spec.sum_counts
    (map (fun d => (d, if Spec.in_window w d then Spec.hits bands d else 0%nat)) docs).
Proof.
  unfold Spec.band_row, Spec.count_where, select, Spec.hits.
  induction docs as [|d docs IH]; simpl.
  - induction bands; simpl; auto.
  - rewrite <- IH. clear IH. destruct (Spec.in_window w d); simpl.
    + induction bands as [|b bands IHb]; simpl; [reflexivity|].
      destruct (Spec.in_band b d); simpl; rewrite IHb; lia.
    + reflexivity.
Qed.

Lemma sum_counts_indicator (p : Transaction -> bool) (docs : list Transaction) :
  Spec.sum_counts (map (fun d => (d, if p d then 1%nat else 0%nat)) docs) =
  Spec.count_where p docs.
Proof.
  unfold Spec.count_where, select.
  induction docs as [|d docs IH]; simpl; [reflexivity|].
  rewrite IH. destruct (p d); reflexivity.
Qed.

Lemma sum_counts_bands (w : Z * Z) (docs : list Transaction) :
  Spec.sum_counts (map (Spec.band_row w docs) priceRanges) =
  Spec.count_where (fun d => Spec.in_window w d && Spec.in_some_band d) docs.
Proof.
  rewrite sum_counts_rows, <- sum_counts_indicator. f_equal.
  apply map_ext. intros d. f_equal.
  rewrite (hits_separated priceRanges d eq_refl). fold (Spec.in_some_band d).
  now destruct (Spec.in_window w d).
Qed.

(** A whole price that is not negative lies in one of the ten bands. *)
Lemma integral_in_some_band (d : Transaction) :
  Spec.price_integral d = true ->
  Spec.in_some_band d = Spec.price_nonneg d.
Proof.
  unfold Spec.price_integral, Spec.in_some_band, Spec.price_nonneg, Spec.in_band.
  destruct (price d) as [p|]; simpl; [|reflexivity].
  intros H. apply Qeq_bool_iff in H. set (z := Qfloor p) in *.
  assert (Lo : forall k, Qle_bool (inject_Z k) p = (k <=? z)).
  { intros k. apply eq_true_iff_eq.
    now rewrite Qle_bool_iff, Z.leb_le, H, <- Zle_Qle. }
  assert (Hi : forall k, Qle_bool p (inject_Z k) = (z <=? k)).
  { intros k. apply eq_true_iff_eq.
    now rewrite Qle_bool_iff, Z.leb_le, H, <- Zle_Qle. }
  rewrite !Lo, !Hi. change 0%Q with (inject_Z 0). rewrite Lo.
  apply eq_true_iff_eq. rewrite !orb_true_iff, !andb_true_iff, !Z.leb_le. lia.
Qed.

(** C1, amended. For a month from 1 to 12, /price-range answers with ten
    rows in the order of the bands, labelled from ["0 - 100"] to
    ["901 - Infinity"]; the count of a row is the number of documents dated
    in the month of the year on the clock whose price lies in the band,
    both ends included; and the ten counts add up to the number of
    documents of the month whose price lies in one of the ten bands, which
    is the number of those with a price in [0, ∞) when every price of the
    month is a whole number. *)
Theorem price_range_bands (env : environment) (q : query) (docs : list Transaction)
    (m : Z) :
  parseInt (param q "month") = Some m ->
  1 <= m <= 12 ->
  100 <= getFullYear env ->
  let in_month := Spec.in_window (Spec.month_bounds (getFullYear env) m) in
  let rows :=
    map (fun b => (band_label b,
                   Spec.count_where (fun d => in_month d && Spec.in_band b d) docs))
        priceRanges in
  fst (run (app env GET_price_range q) docs) = Returned (Response 200 (PriceRange rows))
  /\ collection (snd (run (app env GET_price_range q) docs)) = docs
  /\ map fst rows =
       ["0 - 100"; "101 - 200"; "201 - 300"; "301 - 400"; "401 - 500";
        "501 - 600"; "601 - 700"; "701 - 800"; "801 - 900"; "901 - Infinity"]
  /\ Spec.sum_counts rows =
       Spec.count_where (fun d => in_month d && Spec.in_some_band d) docs
  /\ (Forall (fun d => in_month d = true -> Spec.price_integral d = true) docs ->
      Spec.sum_counts rows =
        Spec.count_where (fun d => in_month d && Spec.price_nonneg d) docs).
Proof.
  intros Em Hm Hy in_month rows.
  assert (Hrun : run (app env GET_price_range q) docs =
                 (Returned (Response 200 (PriceRange rows)),
                  World docs
                    (map (fun b => OpCountDocuments
                            (And [month_window (getFullYear env) m;
                                  PriceBetween (Fin (inject_Z (min b))) (band_max b)]))
                         priceRanges))).
  { unfold run, app, price_range, try_catch. rewrite Em.
    destruct (Z.ltb_spec m 1); [lia|]. destruct (Z.ltb_spec 12 m); [lia|].
    cbv beta iota delta [orb]. unfold bind at 1.
    rewrite mapM_count_band by exact Hm.
    rewrite MakeFullYear_id by lia. reflexivity. }
  assert (Hsum : Spec.sum_counts rows =
                 Spec.count_where (fun d => in_month d && Spec.in_some_band d) docs).
  { apply (sum_counts_bands (Spec.month_bounds (getFullYear env) m) docs). }
  rewrite Hrun. repeat split; auto.
  intros Hint. rewrite Hsum. unfold Spec.count_where, select. f_equal.
  clear Hrun Hsum rows.
  induction Hint as [|d docs' Hd Hrest IH]; simpl; [reflexivity|].
  rewrite IH. destruct (in_month d) eqn:E; simpl; [|reflexivity].
  now rewrite (integral_in_some_band d (Hd eq_refl)).
Qed.

End PriceRange.

(** ** GET /statistics *)
Section Statistics.
Context {platform : Platform}.


Lemma or_zero_count (docs : list Transaction) :
  or_zero_nat (head (Stage.count docs)) = length docs.
Proof. now destruct docs. Qed.

Lemma match_sold_count (b : bool) (docs : list Transaction) :
  length (Stage.match_sold b docs) = Spec.count_where (Spec.sold_is b) docs.
Proof.
  unfold Stage.match_sold, Spec.count_where, select. f_equal.
  apply filter_ext. intros d. unfold Spec.sold_is.
  destruct (sold d) as [[]|]; destruct b; reflexivity.
Qed.

Lemma select_window (w : Z * Z) (docs : list Transaction) :
  select (fun d => Spec.in_window w d && forallb (fun p => p d) []) docs =
  select (Spec.in_window w) docs.
Proof. apply filter_ext. intros d. apply andb_true_r. Qed.

(** What /statistics answers to a valid month and a year. *)
Lemma statistics_run (q : query) (docs : list Transaction) (m y : Z) :
  parseInt (param q "month") = Some m ->
  parseInt (param q "year") = Some y ->
  1 <= m <= 12 ->
  let matched :=
    select (Spec.in_window (Spec.month_bounds (DateTime.MakeFullYear y) m)) docs in
  run (statistics q) docs =
    (Returned (Response 200
       (Statistics (or_zero (head (Stage.group_total matched)))
                   (Spec.count_where (Spec.sold_is true) matched)
                   (Spec.count_where (Spec.sold_is false) matched))),
     World docs [OpAggregate (And [month_window y m])]).
Proof.
  intros Em Ey Hm matched. unfold run, statistics, try_catch. rewrite Em, Ey.
  destruct (Z.ltb_spec m 1); [lia|]. destruct (Z.ltb_spec 12 m); [lia|].
  cbv beta iota delta [orb]. unfold bind at 1.
  erewrite aggregate_run by (apply month_window_accepted; [exact Hm | reflexivity]).
  simpl collection. rewrite select_window. fold matched.
  unfold Stage.facet, respond, ret. cbn [Stage.totalSaleAmount Stage.totalSoldItems
                                           Stage.totalNotSoldItems].
  now rewrite !or_zero_count, !match_sold_count.
Qed.


End Statistics.

(** ** GET /category-stats *)
Section CategoryStats.
Context {platform : Platform}.

Lemma group_lookup (docs : list Transaction) (c : option string) :
  Stage.group_by_category docs !! c =
    match Spec.count_where (Spec.category_is c) docs with
    | O => None
    | S n => Some (S n)
    end.
Proof.
  unfold Spec.count_where, select, Spec.category_is.
  induction docs as [|d docs IH]; simpl.
  - apply lookup_empty.
  - case_bool_decide as E; simpl.
    + subst c. rewrite lookup_insert_eq, IH.
      now destruct (length _).
    + rewrite lookup_insert_ne by exact E. exact IH.
Qed.

Lemma sum_counts_perm {A} (l1 l2 : list (A * nat)) :
  l1 ≡ₚ l2 -> Spec.sum_counts l1 = Spec.sum_counts l2.
Proof.
  unfold Spec.sum_counts.
  induction 1 as [|x l l' _ IH|x y l|l l' l'' _ IH1 _ IH2]; simpl; lia.
Qed.

Lemma sum_counts_bump (m : gmap (option string) nat) (c : option string) :
  Spec.sum_counts (map_to_list (<[c := S (default 0%nat (m !! c))]> m)) =
  S (Spec.sum_counts (map_to_list m)).
Proof.
  destruct (m !! c) as [n|] eqn:E; simpl.
  - rewrite <- (insert_delete_eq m).
    rewrite (sum_counts_perm _ _ (map_to_list_insert (delete c m) c (S n)
                                    (lookup_delete_eq m c))).
    rewrite <- (insert_delete_id m c n E) at 2.
    rewrite (sum_counts_perm _ _ (map_to_list_insert (delete c m) c n
                                    (lookup_delete_eq m c))).
    reflexivity.
  - now rewrite (sum_counts_perm _ _ (map_to_list_insert m c 1%nat E)).
Qed.

Lemma sum_counts_groups (docs : list Transaction) :
  Spec.sum_counts (map_to_list (Stage.group_by_category docs)) = length docs.
Proof.
  induction docs as [|d docs IH]; simpl.
  - now rewrite map_to_list_empty.
  - now rewrite sum_counts_bump, IH.
Qed.

Lemma count_where_pos (p : Transaction -> bool) (docs : list Transaction) :
  (0 < Spec.count_where p docs)%nat <-> exists d, In d docs /\ p d = true.
Proof.
  unfold Spec.count_where, select. split.
  - intros H. destruct (List.filter p docs) as [|d l] eqn:E; [simpl in H; lia|].
    exists d. apply filter_In. rewrite E. now left.
  - intros (d & Hd). apply filter_In in Hd.
    destruct (List.filter p docs); [destruct Hd | simpl; lia].
Qed.

(** C7. For a month from 1 to 12, /category-stats answers with one row
    for each category value found among the documents dated in the month
    of the year on the clock (the empty string and a missing category
    being values like the others), the count of a row is the number of
    those documents with that category, and the counts add up to the
    number of those documents. *)
Theorem category_stats_groups (env : environment) (q : query)
    (docs : list Transaction) (m : Z) :
  parseInt (param q "month") = Some m ->
  1 <= m <= 12 ->
  100 <= getFullYear env ->
  let matched := select (Spec.in_window (Spec.month_bounds (getFullYear env) m)) docs in
  exists rows,
    run (app env GET_category_stats q) docs =
      (Returned (Response 200 (CategoryStats rows)),
       World docs [OpAggregate (And [month_window (getFullYear env) m])])
    /\ NoDup (map fst rows)
    /\ (forall c, In c (map fst rows) <-> exists d, In d matched /\ category d = c)
    /\ (forall c n, In (c, n) rows ->
                    n = Spec.count_where (Spec.category_is c) matched)
    /\ Spec.sum_counts rows = length matched.
Proof.
  intros Em Hm Hy matched.
  exists (map_to_list (Stage.group_by_category matched)).
  assert (Hrow : forall c n,
             In (c, n) (map_to_list (Stage.group_by_category matched)) <->
             n = Spec.count_where (Spec.category_is c) matched /\ (0 < n)%nat).
  { intros c n. rewrite <- list_elem_of_In, elem_of_map_to_list, group_lookup.
    destruct (Spec.count_where _ matched); split.
    - discriminate.
    - intros [-> H]. lia.
    - intros [= <-]. split; [reflexivity | lia].
    - now intros [-> _]. }
  split; [|split; [|split; [|split]]].
  - unfold run, app, category_stats, try_catch. rewrite Em.
    destruct (Z.ltb_spec m 1); [lia|]. destruct (Z.ltb_spec 12 m); [lia|].
    cbv beta iota delta [orb]. unfold bind at 1.
    erewrite aggregate_run by (apply month_window_accepted; [exact Hm | reflexivity]).
    simpl collection. rewrite select_window, MakeFullYear_id by lia.
    reflexivity.
  - apply (NoDup_fst_map_to_list (Stage.group_by_category matched)).
  - intros c. rewrite in_map_iff. split.
    + intros ([c' n] & E & Hin). simpl in E. subst c'.
      apply Hrow in Hin as [-> Hpos]. apply count_where_pos in Hpos as (d & Hd & Hc).
      exists d. split; auto. now apply bool_decide_eq_true in Hc.
    + intros (d & Hd & Hc).
      exists (c, Spec.count_where (Spec.category_is c) matched). split; auto.
      apply Hrow. split; auto. apply count_where_pos. exists d. split; auto.
      now apply bool_decide_eq_true.
  - intros c n Hin. now apply Hrow in Hin.
  - apply sum_counts_groups.
Qed.

End CategoryStats.

(** ** GET /initialize *)
Section Initialize.
Context {platform : Platform}.

Lemma map_item_run (item : json) (w : world) :
  map_item item w =
    if Spec.is_null item then (Thrown (Error "TypeError"), w)
    else (Returned (Spec.mapped_of item), w).
Proof. destruct item; reflexivity. Qed.

Lemma mapM_map_item (items : list json) (w : world) :
  mapM map_item items w =
    if existsb Spec.is_null items then (Thrown (Error "TypeError"), w)
    else (Returned (map Spec.mapped_of items), w).
Proof.
  induction items as [|item items IH]; [reflexivity|].
  cbn [mapM existsb map]. unfold bind at 1. rewrite map_item_run.
  destruct (Spec.is_null item); [reflexivity|].
  unfold bind at 1. rewrite IH.
  destruct (existsb Spec.is_null items); reflexivity.
Qed.

Lemma has_date_parseable (items : list json) :
  List.filter has_date (map Spec.mapped_of items) =
  map Spec.mapped_of (List.filter Spec.parseable items).
Proof.
  induction items as [|item items IH]; [reflexivity|].
  simpl. unfold has_date at 1, Spec.parseable at 1. simpl m_date.
  destruct (parseDate (property item "date")); simpl; now rewrite IH.
Qed.

Lemma parseDate_newDateOf (v : value) : parseDate v = newDateOf v.
Proof. unfold parseDate. now destruct (newDateOf v). Qed.

Lemma valid_date_newDateOf (item : json) :
  Spec.valid_date item =
  match newDateOf (property item "date") with Some _ => true | None => false end.
Proof.
  unfold Spec.valid_date, newDateOf.
  destruct (property item "date") as [[| b | q | s | l | f]|]; try reflexivity.
  - now destruct (Qle_bool _ _).
  - now destruct (Date_parse s).
  - now destruct (Date_parse _).
  - now destruct (Date_parse _).
Qed.

Lemma parseable_valid_date (items : list json) :
  List.filter Spec.parseable items = List.filter Spec.valid_date items.
Proof.
  apply filter_ext. intros item. rewrite valid_date_newDateOf.
  unfold Spec.parseable. now rewrite parseDate_newDateOf.
Qed.

(** What /initialize does with an array. *)
Lemma initialize_array_run (items : list json) (docs : list Transaction) :
  let kept := List.filter Spec.parseable items in
  run (initialize (Some (JArr items))) docs =
    if existsb Spec.is_null items then
      (Returned (Response 500 (Message "Failed to initialize database")),
       World [] [OpDeleteMany (And [])])
    else
      match cast_documents (map Spec.mapped_of kept) with
      | Some ds =>
          (Returned (Response 200 (Message "Database initialized successfully")),
           World ds [OpDeleteMany (And []); OpInsertMany (length kept)])
      | None =>
          (Returned (Response 500 (Message "Failed to initialize database")),
           World [] [OpDeleteMany (And []); OpInsertMany (length kept)])
      end.
Proof.
  intros kept. unfold run, initialize, try_catch, axios_get.
  unfold bind at 1. unfold ret at 1. unfold bind at 1.
  assert (Hdel : deleteMany (And []) (World docs []) =
                 (Returned tt, World [] [OpDeleteMany (And [])])).
  { unfold deleteMany, logged. simpl. f_equal. f_equal.
    unfold select. induction docs; simpl; auto. }
  rewrite Hdel. unfold bind at 1. rewrite mapM_map_item.
  destruct (existsb Spec.is_null items); [reflexivity|].
  rewrite has_date_parseable. fold kept.
  unfold bind at 1. unfold insertMany, logged. cbn [collection oplog].
  rewrite length_map.
  destruct (cast_documents (map Spec.mapped_of kept)); reflexivity.
Qed.

Lemma cast_documents_normalize (items : list json) (ds : list Transaction) :
  cast_documents (map Spec.mapped_of items) = Some ds ->
  Forall2 (fun item d => Spec.normalize item = Some d) items ds.
Proof.
  revert ds. induction items as [|item items IH]; intros ds; simpl.
  - intros [= <-]. constructor.
  - fold (Spec.normalize item). destruct (Spec.normalize item) as [d|] eqn:E; [|discriminate].
    destruct (cast_documents _) as [ds'|]; [|discriminate].
    intros [= <-]. constructor; auto.
Qed.

Lemma cast_default_string (v : value) :
  v = None -> cast_path castString (or_else v (JStr "")) = Some (Some "").
Proof. intros ->. simpl. now rewrite castString_string. Qed.

Lemma cast_default_number (v : value) :
  v = None -> cast_path castNumber (or_else v (JNum 0)) = Some (Some 0%Q).
Proof. intros ->. simpl. now rewrite castNumber_number. Qed.

(** The fields of a normalized record. *)
Lemma normalize_fields (item : json) (d : Transaction) :
  Spec.normalize item = Some d ->
  date d = parseDate (property item "date") /\
  sold d = None /\
  (property item "title" = None -> title d = Some "") /\
  (property item "description" = None -> description d = Some "") /\
  (property item "category" = None -> category d = Some "") /\
  (property item "price" = None -> price d = Some 0%Q).
Proof.
  unfold Spec.normalize, cast_document, Spec.mapped_of.
  cbn [m_transactionId m_productId m_userId m_amount m_date m_title m_description
       m_price m_category].
  destruct (cast_path castString (property item "transaction_id")); [|discriminate].
  destruct (cast_path castString (property item "product_id")); [|discriminate].
  destruct (cast_path castString (property item "user_id")); [|discriminate].
  destruct (cast_path castNumber (property item "amount")); [|discriminate].
  destruct (cast_path castString (or_else (property item "title") _)) eqn:Et;
    [|discriminate].
  destruct (cast_path castString (or_else (property item "description") _)) eqn:Ed;
    [|discriminate].
  destruct (cast_path castNumber (or_else (property item "price") _)) eqn:Ep;
    [|discriminate].
  destruct (cast_path castString (or_else (property item "category") _)) eqn:Ec;
    [|discriminate].
  intros [= <-]. cbn [date sold title description category price].
  repeat split; auto; intros H.
  - rewrite (cast_default_string _ H) in Et. congruence.
  - rewrite (cast_default_string _ H) in Ed. congruence.
  - rewrite (cast_default_string _ H) in Ec. congruence.
  - rewrite (cast_default_number _ H) in Ep. congruence.
Qed.


Lemma initialize_sold (upstream : option json) (docs : list Transaction) :
  Forall (fun d => sold d = None) docs ->
  Forall (fun d => sold d = None) (collection (snd (run (initialize upstream) docs))).
Proof.
  intros Hdocs. destruct upstream as [data|]; [|exact Hdocs].
  destruct data; try exact Hdocs.
  rewrite initialize_array_run.
  destruct (existsb Spec.is_null items); [constructor|].
  destruct (cast_documents _) as [ds|] eqn:E; [|constructor].
  cbn [snd collection]. apply cast_documents_normalize in E.
  induction E as [|item d kept ds' Hd _ IH]; constructor; auto.
  now apply normalize_fields in Hd.
Qed.

Lemma ingested_sold (docs : list Transaction) :
  Spec.ingested docs -> Forall (fun d => sold d = None) docs.
Proof.
  induction 1 as [|docs upstream _ IH]; [constructor|].
  now apply initialize_sold.
Qed.

Lemma no_sold_count (b : bool) (docs : list Transaction) :
  Forall (fun d => sold d = None) docs ->
  Spec.count_where (Spec.sold_is b) docs = 0%nat.
Proof.
  unfold Spec.count_where, select, Spec.sold_is.
  induction 1 as [|d docs Hd _ IH]; [reflexivity|].
  simpl. rewrite Hd. case_bool_decide; [discriminate | exact IH].
Qed.

(** C10. A collection written by /initialize alone holds no document with
    a [sold] field, and every answer of /statistics over it is either the
    400 of an invalid request or a 200 whose [totalSoldItems] and
    [totalNotSoldItems] are both 0. *)
Theorem statistics_of_ingested (docs : list Transaction) (q : query) :
  Spec.ingested docs ->
  Forall (fun d => sold d = None) docs
  /\ (fst (run (statistics q) docs) =
        Returned (Response 400 (Message "Invalid month or year"))
      \/ exists total,
           fst (run (statistics q) docs) =
             Returned (Response 200 (Statistics total 0 0))).
Proof.
  intros Hing. pose proof (ingested_sold docs Hing) as Hsold. split; [exact Hsold|].
  pose proof (statistics_rejects q docs) as R.
  cbn [Spec.invalid_month_request] in R.
  destruct (parseInt (param q "month")) as [m|] eqn:Em.
  2: { left. rewrite R; [reflexivity | now left]. }
  destruct (parseInt (param q "year")) as [y|] eqn:Ey.
  2: { left. rewrite R; [reflexivity | now right; right]. }
  destruct (Z_lt_le_dec m 1) as [Hlo|Hlo].
  { left. rewrite R; [reflexivity | right; left; exists m; auto]. }
  destruct (Z_lt_le_dec 12 m) as [Hhi|Hhi].
  { left. rewrite R; [reflexivity | right; left; exists m; auto]. }
  clear R.
  right. eexists.
  rewrite (statistics_run q docs m y Em Ey ltac:(lia)). cbn [fst].
  rewrite !no_sold_count; [reflexivity | |];
    apply List.Forall_forall; intros d Hd; apply filter_In in Hd as [Hd _];
    revert d Hd; now apply List.Forall_forall.
Qed.

End Initialize.

(** ** The claims that fail, at a concrete request *)
#[local] Existing Instance utcPlatform.

Section Counterexamples.

(** C1 as stated fails: a document of May 2024 priced 100.5 is counted in
    no band, so the ten counts add up to 0 while one document of the month
    has a price in [0, ∞). *)
Lemma price_range_sum_counterexample :
  fst (run (app Sample.in_2024 GET_price_range Sample.may) [Sample.between_bands])
    = Returned (Response 200 (PriceRange Sample.no_hits))
  /\ Spec.sum_counts Sample.no_hits = 0%nat
  /\ Spec.count_where
       (fun d => Spec.in_window (Spec.month_bounds 2024 5) d && Spec.price_nonneg d)
       [Sample.between_bands] = 1%nat.
Proof. repeat split; vm_compute; reflexivity. Qed.

(** C5 as stated fails: the search string is a pattern, and ["."] matches
    a document whose title and description contain no dot and whose price
    it does not denote; and the empty search does not match a document
    that has neither a title nor a description. *)
Lemma search_pattern_counterexample :
  (fst (run (transactions Sample.dot) [Sample.lamp])
     = Returned (Response 200 (TransactionsPage [Sample.lamp] 1 (Fin 1) 1 10))
   /\ ~ Spec.search_matches fl "." Sample.lamp)
  /\ fst (run (transactions (Sample.params [("search", "")])) [Sample.untitled])
     = Returned (Response 200 (TransactionsPage [] 0 (Fin 0) 1 10)).
Proof.
  split; [|vm_compute; reflexivity].
  split; [vm_compute; reflexivity|].
  assert (N : forall t, In t ["lamp"; "desk lamp"] -> ~ Regex.ci_contains t ".").
  { intros t Ht Hc. apply RegexFacts.ci_contains_single in Hc as (x & Hx & E).
    simpl in Ht. destruct Ht as [<-|[<-|[]]]; simpl in Hx;
      repeat (destruct Hx as [<-|Hx]; [vm_compute in E; discriminate E|]);
      destruct Hx. }
  intros [(t & [= <-] & Hc) | [(t & [= <-] & Hc) | (n & p & Ef & _)]].
  - apply (N "lamp"); simpl; auto.
  - apply (N "desk lamp"); simpl; auto.
  - vm_compute in Ef. discriminate Ef.
Qed.


(** C9 as stated fails: the month ["12.9"] is not an integer and lies
    above 12, yet [parseInt] reads 12 in it, and /category-stats queries the
    store for December and answers 200; the year ["2024.75"] is not an
    integer, yet /statistics reads 2024 in it, queries the store for May
    2024 and answers 200. *)
Lemma month_prefix_counterexample :
  (Spec.integer_literal "12.9" = false
   /\ run (app Sample.in_2024 GET_category_stats Sample.month_12_9) Sample.may_2024
      = (Returned (Response 200 (CategoryStats [])),
         World Sample.may_2024 [OpAggregate (And [month_window 2024 12])]))
  /\ (Spec.integer_literal "2024.75" = false
      /\ run (app Sample.in_2024 GET_statistics Sample.may_of_2024_75) Sample.may_2024
         = (Returned (Response 200 (Statistics (Fin 35) 0 0)),
            World Sample.may_2024 [OpAggregate (And [month_window 2024 5])])).
Proof. repeat split; vm_compute; reflexivity. Qed.

End Counterexamples.

(** ** The theorems at work on the sample data *)
Section Witnesses.

Lemma initialize_rejects_non_array_witness :
  run (initialize (Some (JObj [("error", JStr "AccessDenied")]))) Sample.may_2024 =
    (Returned (Response 400 (Message "Invalid data format")),
     World Sample.may_2024 []).
Proof. apply initialize_rejects_non_array. reflexivity. Defined.


Lemma transactions_page_witness :
  exists totalPages,
    run (transactions Sample.page_two) Sample.may_2024 =
      (Returned (Response 200
         (TransactionsPage
            (take (Z.to_nat 2)
                  (drop (Z.to_nat ((2 - 1) * 2))
                        (select Scenario.has_an_a Sample.may_2024)))
            (length (select Scenario.has_an_a Sample.may_2024))
            (Fin (inject_Z totalPages)) 2 2)),
       World Sample.may_2024
             [OpFind (search_query (default "" (Sample.page_two !! "search")))
                     ((2 - 1) * 2) 2;
              OpCountDocuments
                (search_query (default "" (Sample.page_two !! "search")))])
    /\ Z.of_nat (length (take (Z.to_nat 2)
                              (drop (Z.to_nat ((2 - 1) * 2))
                                    (select Scenario.has_an_a Sample.may_2024)))) <= 2
    /\ Spec.is_ceiling totalPages
         (Z.of_nat (length (select Scenario.has_an_a Sample.may_2024))) 2.
Proof.
  apply (transactions_page Sample.page_two Sample.may_2024 2 2 Scenario.has_an_a);
    [reflexivity | reflexivity | lia | lia
     | unfold Spec.held_exactly; simpl; lia | unfold Spec.held_exactly; simpl; lia
     | unfold Spec.held_exactly; simpl; lia | unfold Spec.held_exactly; simpl; lia
     | reflexivity].
Defined.

Lemma search_plain_witness :
  exists matches,
    filter_pred (search_query "bag") = Some matches /\
    (forall d, matches d = true <-> Spec.search_matches fl "bag" d) /\
    ("bag" = "" -> forall d, title d <> None \/ description d <> None -> matches d = true).
Proof. apply search_plain. repeat constructor. Defined.

Lemma price_range_bands_witness :
  fst (run (app Sample.in_2024 GET_price_range Sample.may) Sample.may_2024)
    = Returned (Response 200 (PriceRange Sample.may_rows))
  /\ collection (snd (run (app Sample.in_2024 GET_price_range Sample.may) Sample.may_2024))
     = Sample.may_2024
  /\ map fst Sample.may_rows =
       ["0 - 100"; "101 - 200"; "201 - 300"; "301 - 400"; "401 - 500";
        "501 - 600"; "601 - 700"; "701 - 800"; "801 - 900"; "901 - Infinity"]
  /\ Spec.sum_counts Sample.may_rows =
       Spec.count_where (fun d => Sample.in_may d && Spec.in_some_band d) Sample.may_2024
  /\ (Forall (fun d => Sample.in_may d = true -> Spec.price_integral d = true)
             Sample.may_2024 ->
      Spec.sum_counts Sample.may_rows =
        Spec.count_where (fun d => Sample.in_may d && Spec.price_nonneg d)
                         Sample.may_2024).
Proof.
  apply (price_range_bands Sample.in_2024 Sample.may Sample.may_2024 5);
    [reflexivity | lia | simpl; lia].
Defined.


Lemma category_stats_groups_witness :
  exists rows,
    run (app Sample.in_2024 GET_category_stats Sample.may) Sample.may_2024 =
      (Returned (Response 200 (CategoryStats rows)),
       World Sample.may_2024
             [OpAggregate (And [month_window (getFullYear Sample.in_2024) 5])])
    /\ NoDup (map fst rows)
    /\ (forall c, In c (map fst rows) <->
                  exists d, In d Sample.of_may /\ category d = c)
    /\ (forall c n, In (c, n) rows ->
                    n = Spec.count_where (Spec.category_is c) Sample.of_may)
    /\ Spec.sum_counts rows = length Sample.of_may.
Proof.
  apply (category_stats_groups Sample.in_2024 Sample.may Sample.may_2024 5);
    [reflexivity | lia | simpl; lia].
Defined.

Lemma month_validation_witness :
  run (app Sample.in_2024 GET_price_range Sample.month_13) Sample.may_2024 =
    (Returned (Response 400 (Message "Invalid month")), World Sample.may_2024 []).
Proof.
  apply (month_validation Sample.in_2024 GET_price_range Sample.month_13
           Sample.may_2024).
  right. exists 13. split; [reflexivity | lia].
Defined.

Lemma statistics_of_ingested_witness :
  Forall (fun d => sold d = None) (collection (snd Sample.first_ingest))
  /\ (fst (run (statistics Sample.november_of_2021) (collection (snd Sample.first_ingest))) =
        Returned (Response 400 (Message "Invalid month or year"))
      \/ exists total,
           fst (run (statistics Sample.november_of_2021)
                    (collection (snd Sample.first_ingest))) =
             Returned (Response 200 (Statistics total 0 0))).
Proof.
  apply (statistics_of_ingested (collection (snd Sample.first_ingest))
           Sample.november_of_2021).
  apply (Spec.ingested_initialize [] (Some (JArr Sample.payload_items))).
  apply Spec.ingested_empty.
Defined.

End Witnesses.


(** * Further properties of the handlers *)

#[local] Remove Hints utcPlatform : typeclass_instances.

(** ** /initialize: what is written, and when *)
Section Replacement.
Context {platform : Platform}.

(** X1. /initialize touches the collection only for an array: when the
    fetch fails or the payload is anything else, the answer is a 500 or a
    400, the collection is what it was and no call is made on the model. *)
Theorem initialize_writes_only_for_arrays (upstream : option json)
    (docs : list Transaction) :
  (forall items, upstream <> Some (JArr items)) ->
  snd (run (initialize upstream) docs) = World docs []
  /\ (upstream = None ->
      fst (run (initialize upstream) docs) =
        Returned (Response 500 (Message "Failed to initialize database")))
  /\ (upstream <> None ->
      fst (run (initialize upstream) docs) =
        Returned (Response 400 (Message "Invalid data format"))).
Proof.
  intros H. destruct upstream as [data|].
  - destruct data as [| b | n | t | items | fields];
      try (split; [|split]; [reflexivity | discriminate | reflexivity]).
    now destruct (H items).
  - split; [|split]; try reflexivity. intros E. now destruct E.
Qed.

(** X2. Over an array /initialize always begins by asking the store to
    delete every document, and answers 200 or 500, never 400.  A 200 means
    that no item is null, that [insertMany] was called once, after
    [deleteMany], with one document for each item whose [date] makes a valid
    Date, and that the collection holds as many records. *)
Theorem initialize_array_outcome (items : list json) (docs : list Transaction) :
  let result := run (initialize (Some (JArr items))) docs in
  head (oplog (snd result)) = Some (OpDeleteMany (And []))
  /\ (Observe.status_of (fst result) = 200 \/ Observe.status_of (fst result) = 500)
  /\ (Observe.status_of (fst result) = 200 ->
      existsb Spec.is_null items = false
      /\ oplog (snd result) =
           [OpDeleteMany (And []);
            OpInsertMany (length (List.filter Spec.valid_date items))]
      /\ length (collection (snd result)) =
           length (List.filter Spec.valid_date items)).
Proof.
  intros result. subst result. rewrite initialize_array_run, parseable_valid_date.
  destruct (existsb Spec.is_null items).
  - split; [reflexivity | split; [now right | discriminate]].
  - destruct (cast_documents _) as [ds|] eqn:E.
    + split; [reflexivity | split; [now left|]]. intros _.
      split; [reflexivity | split; [reflexivity|]].
      cbn [snd collection]. apply cast_documents_normalize in E.
      symmetry. eapply Forall2_length. exact E.
    + split; [reflexivity | split; [now right | discriminate]].
Qed.

(** X3. A null among the items of the array makes /initialize answer 500
    after it has emptied the collection: [insertMany] is never called and
    the old documents are lost. *)
Theorem initialize_null_item (items : list json) (docs : list Transaction) :
  In JNull items ->
  run (initialize (Some (JArr items))) docs =
    (Returned (Response 500 (Message "Failed to initialize database")),
     World [] [OpDeleteMany (And [])]).
Proof.
  intros H. rewrite initialize_array_run.
  replace (existsb Spec.is_null items) with true; [reflexivity|].
  symmetry. apply existsb_exists. exists JNull. split; [exact H | reflexivity].
Qed.

(** X4. What /initialize leaves behind over an array does not depend on
    the collection it finds, and calling it again with the same upstream
    answer changes nothing. *)
Theorem initialize_replaces (upstream : option json) (docs : list Transaction) :
  (forall items docs',
      upstream = Some (JArr items) ->
      run (initialize upstream) docs' = run (initialize upstream) docs)
  /\ run (initialize upstream) (collection (snd (run (initialize upstream) docs))) =
     run (initialize upstream) docs.
Proof.
  split.
  - intros items docs' ->. now rewrite !initialize_array_run.
  - destruct upstream as [data|]; [|reflexivity].
    destruct data; try reflexivity. now rewrite !initialize_array_run.
Qed.

End Replacement.

(** ** The field mapping of /initialize *)
Section Mapping.
Context {platform : Platform}.

(** The paths of a normalized record, one by one. *)
Lemma normalize_paths (item : json) (d : Transaction) :
  Spec.normalize item = Some d ->
  cast_path castString (property item "transaction_id") = Some (transactionId d) /\
  cast_path castString (property item "product_id") = Some (productId d) /\
  cast_path castString (property item "user_id") = Some (userId d) /\
  cast_path castNumber (property item "amount") = Some (amount d) /\
  cast_path castString (or_else (property item "title") (JStr "")) = Some (title d) /\
  cast_path castString (or_else (property item "description") (JStr "")) =
    Some (description d) /\
  cast_path castNumber (or_else (property item "price") (JNum 0)) = Some (price d) /\
  cast_path castString (or_else (property item "category") (JStr "")) =
    Some (category d).
Proof.
  unfold Spec.normalize, cast_document, Spec.mapped_of.
  cbn [m_transactionId m_productId m_userId m_amount m_date m_title m_description
       m_price m_category].
  destruct (cast_path castString (property item "transaction_id")); [|discriminate].
  destruct (cast_path castString (property item "product_id")); [|discriminate].
  destruct (cast_path castString (property item "user_id")); [|discriminate].
  destruct (cast_path castNumber (property item "amount")); [|discriminate].
  destruct (cast_path castString (or_else (property item "title") _)); [|discriminate].
  destruct (cast_path castString (or_else (property item "description") _));
    [|discriminate].
  destruct (cast_path castNumber (or_else (property item "price") _)); [|discriminate].
  destruct (cast_path castString (or_else (property item "category") _));
    [|discriminate].
  intros [= <-]. cbn. repeat split; reflexivity.
Qed.

Lemma cast_string_kept (v : value) (s : string) (stored : option string) :
  v = Some (JStr s) ->
  cast_path castString v = Some stored -> stored = Some s.
Proof. intros ->. simpl. rewrite castString_string. now intros [= <-]. Qed.

Lemma or_else_string (v : value) (s : string) :
  v = Some (JStr s) -> or_else v (JStr "") = Some (JStr s).
Proof.
  intros ->. unfold or_else, truthy.
  destruct (String.eqb_spec s ""); simpl; congruence.
Qed.

Lemma or_else_falsy (v : value) (d : json) : truthy v = false -> or_else v d = Some d.
Proof. intros H. unfold or_else. now rewrite H. Qed.

(** X5. The mapping renames and keeps: a string under [transaction_id],
    [product_id], [user_id], [title], [description] or [category] and a
    number under [amount] or [price] are stored as they are, under
    [transactionId], [productId], [userId] and the names unchanged. *)
Theorem normalize_keeps (item : json) (d : Transaction) :
  Spec.normalize item = Some d ->
  (forall s, property item "transaction_id" = Some (JStr s) -> transactionId d = Some s)
  /\ (forall s, property item "product_id" = Some (JStr s) -> productId d = Some s)
  /\ (forall s, property item "user_id" = Some (JStr s) -> userId d = Some s)
  /\ (forall q, property item "amount" = Some (JNum q) -> amount d = Some q)
  /\ (forall s, property item "title" = Some (JStr s) -> title d = Some s)
  /\ (forall s, property item "description" = Some (JStr s) -> description d = Some s)
  /\ (forall s, property item "category" = Some (JStr s) -> category d = Some s)
  /\ (forall q, property item "price" = Some (JNum q) ->
                exists p, price d = Some p /\ (p == q)%Q).
Proof.
  intros H. apply normalize_paths in H as (Ht & Hp & Hu & Ha & Hti & Hd & Hpr & Hc).
  repeat split.
  - intros s E. now apply (cast_string_kept _ s _ E).
  - intros s E. now apply (cast_string_kept _ s _ E).
  - intros s E. now apply (cast_string_kept _ s _ E).
  - intros q E. rewrite E in Ha. simpl in Ha. rewrite castNumber_number in Ha.
    now injection Ha as <-.
  - intros s E. now apply (cast_string_kept _ s _ (or_else_string _ s E)).
  - intros s E. now apply (cast_string_kept _ s _ (or_else_string _ s E)).
  - intros s E. now apply (cast_string_kept _ s _ (or_else_string _ s E)).
  - intros q E. rewrite E in Hpr. unfold or_else, truthy in Hpr.
    destruct (Qeq_bool q 0) eqn:Z0; simpl in Hpr; rewrite castNumber_number in Hpr;
      injection Hpr as <-.
    + exists 0%Q. split; [reflexivity|]. apply Qeq_bool_iff in Z0. now symmetry.
    + exists q. split; reflexivity.
Qed.

(** X6. The defaults replace every falsy value, not only a missing one: a
    title, description or category that is undefined, null, false, 0 or the
    empty string is stored as the empty string, and such a price as 0.  The
    identifiers and the amount have no default: missing or null, they are
    missing in the record. *)
Theorem normalize_defaults (item : json) (d : Transaction) :
  Spec.normalize item = Some d ->
  (truthy (property item "title") = false -> title d = Some "")
  /\ (truthy (property item "description") = false -> description d = Some "")
  /\ (truthy (property item "category") = false -> category d = Some "")
  /\ (truthy (property item "price") = false -> price d = Some 0%Q)
  /\ (forall name stored,
        In (name, stored)
           [("transaction_id", transactionId d); ("product_id", productId d);
            ("user_id", userId d)] ->
        property item name = None \/ property item name = Some JNull ->
        stored = None)
  /\ (property item "amount" = None \/ property item "amount" = Some JNull ->
      amount d = None).
Proof.
  intros H. apply normalize_paths in H as (Ht & Hp & Hu & Ha & Hti & Hd & Hpr & Hc).
  assert (S0 : forall v stored,
             truthy v = false ->
             cast_path castString (or_else v (JStr "")) = Some stored ->
             stored = Some "").
  { intros v stored Hv E. rewrite (or_else_falsy _ _ Hv) in E. simpl in E.
    rewrite castString_string in E. now injection E as <-. }
  assert (N0 : forall A (cast : json -> option A) v (stored : option A),
             v = None \/ v = Some JNull ->
             cast_path cast v = Some stored -> stored = None).
  { intros A cast v stored [-> | ->] E; simpl in E; now injection E as <-. }
  split; [|split; [|split; [|split; [|split]]]].
  - intros Hv. now apply (S0 _ _ Hv).
  - intros Hv. now apply (S0 _ _ Hv).
  - intros Hv. now apply (S0 _ _ Hv).
  - intros Hv. rewrite (or_else_falsy _ _ Hv) in Hpr. simpl in Hpr.
    rewrite castNumber_number in Hpr. now injection Hpr as <-.
  - intros name stored Hin Hv. simpl in Hin.
    destruct Hin as [[= <- <-] | [[= <- <-] | [[= <- <-] | []]]];
      now apply (N0 _ castString _ _ Hv).
  - intros Hv. now apply (N0 _ castNumber _ _ Hv).
Qed.

(** X7. [parseDate] on a number: a time value within 8.64e15 milliseconds
    of the epoch is kept, cut to a whole number of milliseconds towards
    zero; beyond that range the date is invalid and the result is null. *)
Theorem parseDate_number (q : Q) :
  if Qle_bool (Qabs q) (inject_Z 8640000000000000) then
    exists t, parseDate (Some (JNum q)) = Some t
              /\ Z.abs t <= 8640000000000000
              /\ (Qabs (inject_Z t) <= Qabs q)%Q
              /\ (Qabs (q - inject_Z t) < 1)%Q
  else parseDate (Some (JNum q)) = None.
Proof.
  unfold parseDate, newDateOf.
  destruct (Qle_bool (Qabs q) (inject_Z 8640000000000000)) eqn:B; [|reflexivity].
  apply Qle_bool_iff in B.
  destruct (Qle_bool 0 q) eqn:S0.
  - apply Qle_bool_iff in S0. exists (Qfloor q). split; [reflexivity|].
    pose proof (Qfloor_le q) as Lo. pose proof (Qlt_floor q) as Hi.
    assert (P : 0 <= Qfloor q).
    { change 0 with (Qfloor 0). now apply Qfloor_resp_le. }
    assert (Pq : (0 <= inject_Z (Qfloor q))%Q).
    { change 0%Q with (inject_Z 0). now rewrite <- Zle_Qle. }
    rewrite (Qabs_pos q S0) in *. rewrite (Qabs_pos _ Pq).
    split; [|split].
    + rewrite Z.abs_eq by exact P. rewrite Zle_Qle.
      eapply Qle_trans; [exact Lo | exact B].
    + exact Lo.
    + rewrite Qabs_pos.
      * rewrite inject_Z_plus in Hi. apply (Qplus_lt_l _ _ (inject_Z (Qfloor q))).
        ring_simplify. exact Hi.
      * apply (Qplus_le_l _ _ (inject_Z (Qfloor q))). now ring_simplify.
  - assert (Nq : (q <= 0)%Q).
    { apply Qlt_le_weak, Qnot_le_lt. intros C. apply Qle_bool_iff in C. congruence. }
    exists (Qceiling q). split; [reflexivity|].
    pose proof (Qle_ceiling q) as Lo. pose proof (Qceiling_lt q) as Hi.
    assert (P : Qceiling q <= 0).
    { change 0 with (Qceiling 0). now apply Qceiling_resp_le. }
    assert (Pq : (inject_Z (Qceiling q) <= 0)%Q).
    { change 0%Q with (inject_Z 0). now rewrite <- Zle_Qle. }
    rewrite (Qabs_neg q Nq) in *. rewrite (Qabs_neg _ Pq).
    split; [|split].
    + rewrite Z.abs_neq by exact P. rewrite Zle_Qle, inject_Z_opp.
      eapply Qle_trans; [|exact B]. now apply Qopp_le_compat.
    + now apply Qopp_le_compat.
    + rewrite Qabs_neg.
      * unfold Z.sub in Hi. rewrite inject_Z_plus in Hi.
        apply (Qplus_lt_l _ _ (q - 1)). ring_simplify. exact Hi.
      * apply (Qplus_le_l _ _ (inject_Z (Qceiling q))). now ring_simplify.
Qed.

(** X8. An item without a [date] is dropped by /initialize, whatever else
    it carries, while an item whose [date] is null is kept: [new Date(null)]
    is the epoch, so its record is dated 1 January 1970. *)
Theorem parseDate_missing_or_null (item : json) :
  (property item "date" = None -> Spec.parseable item = false)
  /\ (property item "date" = Some JNull ->
      Spec.parseable item = true /\
      forall d, Spec.normalize item = Some d -> date d = Some 0).
Proof.
  unfold Spec.parseable. split.
  - now intros ->.
  - intros E. rewrite E. split; [reflexivity|].
    intros d H. apply normalize_fields in H as (Hd & _). now rewrite Hd, E.
Qed.

End Mapping.

(** ** What /initialize guarantees of every record *)
Section Records.
Context {platform : Platform}.

(** A property of every normalized record of an item with a date is kept
    by /initialize. *)
Lemma initialize_forall (P : Transaction -> Prop) (upstream : option json)
    (docs : list Transaction) :
  (forall item d, Spec.parseable item = true -> Spec.normalize item = Some d -> P d) ->
  Forall P docs ->
  Forall P (collection (snd (run (initialize upstream) docs))).
Proof.
  intros HP Hdocs. destruct upstream as [data|]; [|exact Hdocs].
  destruct data as [| b | n | t | items | fields]; try exact Hdocs.
  rewrite initialize_array_run.
  destruct (existsb Spec.is_null items); [constructor|].
  destruct (cast_documents _) as [ds|] eqn:E; [|constructor].
  cbn [snd collection]. apply cast_documents_normalize in E.
  assert (Hk : Forall (fun item => Spec.parseable item = true)
                      (List.filter Spec.parseable items)).
  { apply List.Forall_forall. intros item Hin. now apply filter_In in Hin. }
  induction E as [|item d kept ds' Hd _ IH]; constructor.
  - apply (HP item d); [now apply Forall_inv in Hk | exact Hd].
  - apply IH. now apply Forall_inv_tail in Hk.
Qed.

Lemma ingested_forall (P : Transaction -> Prop) (docs : list Transaction) :
  (forall item d, Spec.parseable item = true -> Spec.normalize item = Some d -> P d) ->
  Spec.ingested docs -> Forall P docs.
Proof.
  intros HP. induction 1 as [|docs upstream _ IH]; [constructor|].
  now apply initialize_forall.
Qed.

Lemma cast_default_present {A} (cast : json -> option A) (v : value) (dflt : json)
    (stored : option A) :
  dflt <> JNull ->
  cast_path cast (or_else v dflt) = Some stored -> stored <> None.
Proof.
  intros Hd. unfold or_else. destruct (truthy v) eqn:T.
  - destruct v as [[]|]; simpl in *; try discriminate;
      destruct (cast _); simpl; intros [= <-]; discriminate.
  - destruct dflt; try congruence; simpl;
      destruct (cast _); simpl; intros [= <-]; discriminate.
Qed.

(** X9. Every document of a collection written by /initialize alone has a
    date, a title, a description, a price and a category, and no [sold]
    field: the filter on the date and the defaults leave none of them
    missing. *)
Theorem ingested_records_complete (docs : list Transaction) :
  Spec.ingested docs ->
  Forall (fun d => date d <> None /\ title d <> None /\ description d <> None /\
                   price d <> None /\ category d <> None /\ sold d = None) docs.
Proof.
  apply ingested_forall. intros item d Hp Hn.
  pose proof (normalize_fields item d Hn) as (Hdate & Hsold & _).
  pose proof (normalize_paths item d Hn) as (_ & _ & _ & _ & Ht & Hd & Hpr & Hc).
  repeat split.
  - rewrite Hdate. unfold Spec.parseable in Hp.
    destruct (parseDate _); [discriminate | discriminate Hp].
  - now apply (cast_default_present castString _ (JStr "") _ ltac:(discriminate) Ht).
  - now apply (cast_default_present castString _ (JStr "") _ ltac:(discriminate) Hd).
  - now apply (cast_default_present castNumber _ (JNum 0) _ ltac:(discriminate) Hpr).
  - now apply (cast_default_present castString _ (JStr "") _ ltac:(discriminate) Hc).
  - exact Hsold.
Qed.

End Records.

(** ** /transactions beyond a valid page *)
Section Paging.
Context {platform : Platform}.

Lemma find_run_any (f : filter) (p : Transaction -> bool) (skip limit : Z) (w : world) :
  filter_pred f = Some p -> 0 <= skip ->
  find f skip limit w =
    (Returned (let rest := drop (Z.to_nat skip) (select p (collection w)) in
               if limit =? 0 then rest else take (Z.to_nat (Z.abs limit)) rest),
     World (collection w) (oplog w ++ [OpFind f skip limit])%list).
Proof.
  intros E Hs. unfold find, logged. rewrite E.
  destruct (Z.ltb_spec skip 0); [lia | reflexivity].
Qed.

Lemma find_negative_skip (f : filter) (skip limit : Z) (w : world) :
  skip < 0 ->
  find f skip limit w =
    (Thrown rejected, World (collection w) (oplog w ++ [OpFind f skip limit])%list).
Proof.
  intros Hs. unfold find, logged. destruct (filter_pred f); [|reflexivity].
  destruct (Z.ltb_spec skip 0); [reflexivity | lia].
Qed.

(** What /transactions answers once its parameters parse and the store takes
    the query. *)
Lemma transactions_run (q : query) (docs : list Transaction) (page perPage : Z)
    (matches : Transaction -> bool) :
  parseInt (default "1" (q !! "page")) = Some page ->
  parseInt (default "10" (q !! "perPage")) = Some perPage ->
  filter_pred (search_query (default "" (q !! "search"))) = Some matches ->
  0 <= (page - 1) * perPage ->
  run (transactions q) docs =
    (Returned (Response 200
       (TransactionsPage
          (let rest := drop (Z.to_nat ((page - 1) * perPage)) (select matches docs) in
           if perPage =? 0 then rest else take (Z.to_nat (Z.abs perPage)) rest)
          (length (select matches docs))
          (Math_ceil (divide (Z.of_nat (length (select matches docs))) perPage))
          page perPage)),
     World docs [OpFind (search_query (default "" (q !! "search")))
                        ((page - 1) * perPage) perPage;
                 OpCountDocuments (search_query (default "" (q !! "search")))]).
Proof.
  intros Ep En E Hs. unfold run, transactions, try_catch. rewrite Ep, En.
  set (f := search_query _) in *.
  unfold bind at 1. rewrite (find_run_any f matches) by auto.
  unfold bind at 1. rewrite (countDocuments_run f matches) by auto.
  reflexivity.
Qed.

(** The empty search is taken by the store and selects the documents that
    have a title or a description. *)
Lemma empty_search_pred :
  filter_pred (search_query "") =
    Some (fun d => existsb (fun p => p d)
                     [fun d => on_field (title d) (Regex.test Regex.Eps);
                      fun d => on_field (description d) (Regex.test Regex.Eps)]).
Proof. reflexivity. Qed.

Lemma test_empty_pattern (t : string) : Regex.test Regex.Eps t = true.
Proof. unfold Regex.test. now destruct (Lex.chars t). Qed.

Lemma select_all (p : Transaction -> bool) (docs : list Transaction) :
  Forall (fun d => p d = true) docs -> select p docs = docs.
Proof.
  unfold select. induction 1 as [|d docs Hd _ IH]; simpl; [reflexivity|].
  now rewrite Hd, IH.
Qed.

(** X10. Over a collection written by /initialize alone, a request without
    a search, or with an empty one, pages through the whole collection:
    [totalCount] is the size of the collection and the page is cut out of
    the collection in its order. *)
Theorem empty_search_lists_everything (q : query) (docs : list Transaction)
    (page perPage : Z) :
  Spec.ingested docs ->
  q !! "search" = None \/ q !! "search" = Some "" ->
  parseInt (default "1" (q !! "page")) = Some page ->
  parseInt (default "10" (q !! "perPage")) = Some perPage ->
  1 <= page -> 1 <= perPage ->
  exists totalPages,
    fst (run (transactions q) docs) =
      Returned (Response 200
        (TransactionsPage
           (take (Z.to_nat perPage) (drop (Z.to_nat ((page - 1) * perPage)) docs))
           (length docs) (Fin (inject_Z totalPages)) page perPage))
    /\ Spec.is_ceiling totalPages (Z.of_nat (length docs)) perPage.
Proof.
  intros Hing Hs Ep En Hp Hn.
  assert (Es : default "" (q !! "search") = "") by (destruct Hs as [-> | ->]; reflexivity).
  destruct (ceil_divide (Z.of_nat (length docs)) perPage ltac:(lia)) as (k & Ek & Hk).
  exists k. split; [|exact Hk].
  erewrite transactions_run; eauto; [|rewrite Es; apply empty_search_pred | nia].
  cbn [fst]. rewrite select_all.
  - destruct (Z.eqb_spec perPage 0); [lia|].
    now rewrite Z.abs_eq, Ek by lia.
  - eapply Forall_impl; [apply (ingested_records_complete docs Hing)|].
    intros d (_ & Ht & _). cbn [existsb].
    destruct (title d) as [t|]; [|congruence].
    cbn [on_field]. now rewrite test_empty_pattern.
Qed.

End Paging.

Section PagesTogether.
Context {platform : Platform}.

Lemma pages_concat {A} (all : list A) (n k : nat) :
  concat (map (fun i => take n (drop (i * n) all)) (seq 0 k)) = take (k * n) all.
Proof.
  induction k as [|k IH]; [reflexivity|].
  rewrite seq_S, map_app, concat_app, IH. simpl.
  rewrite app_nil_r, take_take_drop. f_equal. lia.
Qed.

(** X11. The pages of /transactions fit together: for a [perPage] of at
    least 1, the documents of pages 1 to k, one after the other, are the
    first [k * perPage] matches in their order, each once; they are all the
    matches as soon as [k * perPage] reaches [totalCount], as it does for
    [k = totalPages]. *)
Theorem pages_cover_matches (request : nat -> query) (docs : list Transaction)
    (perPage : Z) (search : string) (matches : Transaction -> bool) (k : nat) :
  1 <= perPage ->
  (forall i, (i < k)%nat ->
     parseInt (default "1" (request i !! "page")) = Some (Z.of_nat (S i)) /\
     parseInt (default "10" (request i !! "perPage")) = Some perPage /\
     default "" (request i !! "search") = search) ->
  filter_pred (search_query search) = Some matches ->
  concat (map (fun i => Observe.page_documents
                          (fst (run (transactions (request i)) docs)))
              (seq 0 k))
    = take (k * Z.to_nat perPage) (select matches docs)
  /\ (Z.of_nat (length (select matches docs)) <= Z.of_nat k * perPage ->
      concat (map (fun i => Observe.page_documents
                              (fst (run (transactions (request i)) docs)))
                  (seq 0 k))
        = select matches docs).
Proof.
  intros Hn Hreq Hf.
  assert (E : concat (map (fun i => Observe.page_documents
                                      (fst (run (transactions (request i)) docs)))
                          (seq 0 k))
              = take (k * Z.to_nat perPage) (select matches docs)).
  { rewrite <- pages_concat. f_equal. apply map_ext_in. intros i Hi.
    apply in_seq in Hi. destruct (Hreq i ltac:(lia)) as (Ep & En & Es).
    assert (Hf' : filter_pred (search_query (default "" (request i !! "search")))
                  = Some matches) by now rewrite Es.
    rewrite (transactions_run (request i) docs (Z.of_nat (S i)) perPage matches
               Ep En Hf' ltac:(nia)).
    cbn [fst Observe.page_documents].
    destruct (Z.eqb_spec perPage 0); [lia|].
    rewrite Z.abs_eq by lia. do 2 f_equal. nia. }
  split; [exact E|].
  intros Hk. rewrite E. apply take_ge. nia.
Qed.

(** X12. A page of /transactions is empty exactly when the pages before it
    have already shown all the matches: [(page - 1) * perPage] is at least
    [totalCount]. *)
Theorem page_past_the_end (q : query) (docs : list Transaction) (page perPage : Z)
    (matches : Transaction -> bool) :
  parseInt (default "1" (q !! "page")) = Some page ->
  parseInt (default "10" (q !! "perPage")) = Some perPage ->
  filter_pred (search_query (default "" (q !! "search"))) = Some matches ->
  1 <= page -> 1 <= perPage ->
  Observe.page_documents (fst (run (transactions q) docs)) = [] <->
  Z.of_nat (length (select matches docs)) <= (page - 1) * perPage.
Proof.
  intros Ep En Hf Hp Hn.
  rewrite (transactions_run q docs page perPage matches Ep En Hf ltac:(nia)).
  cbn [fst Observe.page_documents].
  destruct (Z.eqb_spec perPage 0); [lia|]. rewrite Z.abs_eq by lia.
  assert (Hs : 0 <= (page - 1) * perPage) by nia.
  set (all := select matches docs). set (skip := (page - 1) * perPage) in *. split.
  - intros H. apply (f_equal (@length _)) in H.
    rewrite length_take, length_drop in H. simpl in H. lia.
  - intros H. rewrite drop_ge by lia. now destruct (Z.to_nat perPage).
Qed.

(** X13. /transactions does not refuse a [perPage] of 0, written without
    a minus sign: the store takes a limit of 0 as no limit, so every match
    is listed in one answer, and [totalPages], a division by zero, is
    Infinity, or NaN when nothing matches.  The page is at least 1 and an
    integer that a Number holds exactly. *)
Theorem per_page_zero (q : query) (docs : list Transaction) (page : Z)
    (matches : Transaction -> bool) :
  parseInt (default "1" (q !! "page")) = Some page ->
  1 <= page -> Spec.held_exactly page ->
  parseInt (default "10" (q !! "perPage")) = Some 0 ->
  Spec.minus_sign (default "10" (q !! "perPage")) = false ->
  filter_pred (search_query (default "" (q !! "search"))) = Some matches ->
  fst (run (transactions q) docs) =
    Returned (Response 200
      (TransactionsPage (select matches docs) (length (select matches docs))
         (match select matches docs with [] => NaN | _ :: _ => Inf false end)
         page 0)).
Proof.
  intros Ep _ _ En _ Hf.
  rewrite (transactions_run q docs page 0 matches Ep En Hf ltac:(lia)).
  cbn [fst]. rewrite Z.mul_0_r. cbn [Z.eqb Z.to_nat drop].
  unfold divide. cbn [Z.eqb Math_ceil].
  destruct (select matches docs); reflexivity.
Qed.

(** X14. /transactions does not refuse a [page] below 1 either: with a
    [perPage] of at least 1 the skip is negative, the store rejects the
    [find], and the answer is a 500; no count is asked for and the
    collection is as it was. *)
Theorem page_below_one (q : query) (docs : list Transaction) (page perPage : Z) :
  parseInt (default "1" (q !! "page")) = Some page ->
  parseInt (default "10" (q !! "perPage")) = Some perPage ->
  page <= 0 -> 1 <= perPage ->
  Observe.status_of (fst (run (transactions q) docs)) = 500
  /\ snd (run (transactions q) docs) =
       World docs [OpFind (search_query (default "" (q !! "search")))
                          ((page - 1) * perPage) perPage].
Proof.
  intros Ep En Hp Hn.
  assert (E : run (transactions q) docs =
              (Returned (Response 500
                 (Message ("Failed to list transactions: " ++ message rejected))),
               World docs [OpFind (search_query (default "" (q !! "search")))
                                  ((page - 1) * perPage) perPage])).
  { unfold run, transactions, try_catch. rewrite Ep, En.
    unfold bind at 1. now rewrite find_negative_skip by nia. }
  rewrite E. split; reflexivity.
Qed.

End PagesTogether.

(** ** What no route does *)
Section Conduct.
Context {platform : Platform}.

Lemma reads_ret {A} (a : A) : Observe.reads (ret a).
Proof. intros w. split; [reflexivity|]. exists []. now rewrite app_nil_r. Qed.

Lemma reads_throw {A} (e : exn) : Observe.reads (@throw A e).
Proof. intros w. split; [reflexivity|]. exists []. now rewrite app_nil_r. Qed.

Lemma reads_then {A} (w w1 : world) (ops1 : list op) (m : M A) :
  collection w1 = collection w ->
  oplog w1 = (oplog w ++ ops1)%list ->
  forallb Observe.is_read ops1 = true ->
  Observe.reads m ->
  collection (snd (m w1)) = collection w /\
  exists ops, oplog (snd (m w1)) = (oplog w ++ ops)%list /\
              forallb Observe.is_read ops = true.
Proof.
  intros C1 L1 R1 Hm. destruct (Hm w1) as (C2 & ops2 & L2 & R2).
  split; [congruence|]. exists (ops1 ++ ops2)%list. split.
  - now rewrite L2, L1, app_assoc.
  - rewrite forallb_app. now rewrite R1, R2.
Qed.

Lemma reads_bind {A B} (m : M A) (k : A -> M B) :
  Observe.reads m -> (forall a, Observe.reads (k a)) -> Observe.reads (bind m k).
Proof.
  intros Hm Hk w. unfold bind. destruct (Hm w) as (C1 & ops1 & L1 & R1).
  destruct (m w) as [[a|e] w1]; cbn [snd] in *.
  - now apply (reads_then w w1 ops1).
  - split; [exact C1|]. now exists ops1.
Qed.

Lemma reads_try_catch {A} (body : M A) (handler : exn -> M A) :
  Observe.reads body -> (forall e, Observe.reads (handler e)) ->
  Observe.reads (try_catch body handler).
Proof.
  intros Hm Hh w. unfold try_catch. destruct (Hm w) as (C1 & ops1 & L1 & R1).
  destruct (body w) as [[a|e] w1]; cbn [snd] in *.
  - split; [exact C1|]. now exists ops1.
  - now apply (reads_then w w1 ops1).
Qed.

Lemma reads_logged {A} (o : op) (f : list Transaction -> outcome A) :
  Observe.is_read o = true ->
  Observe.reads (logged o (fun docs => (f docs, docs))).
Proof.
  intros Ho w. unfold logged. cbn. split; [reflexivity|].
  exists [o]. split; [reflexivity|]. cbn. now rewrite Ho.
Qed.

Lemma reads_find (f : filter) (skip limit : Z) : Observe.reads (find f skip limit).
Proof.
  intros w. pose proof (reads_logged (OpFind f skip limit)
    (fun docs => match filter_pred f with
                 | Some p =>
                     if skip <? 0 then Thrown rejected
                     else Returned
                            (let rest := drop (Z.to_nat skip) (select p docs) in
                             if limit =? 0 then rest
                             else take (Z.to_nat (Z.abs limit)) rest)
                 | None => Thrown rejected
                 end) eq_refl w) as H.
  unfold find, logged in *. cbn in *.
  destruct (filter_pred f); [destruct (skip <? 0)|]; exact H.
Qed.

Lemma reads_countDocuments (f : filter) : Observe.reads (countDocuments f).
Proof.
  intros w. pose proof (reads_logged (OpCountDocuments f)
    (fun docs => match filter_pred f with
                 | Some p => Returned (length (select p docs))
                 | None => Thrown rejected
                 end) eq_refl w) as H.
  unfold countDocuments, logged in *. cbn in *.
  destruct (filter_pred f); exact H.
Qed.

Lemma reads_aggregate {A} (f : filter) (stages : list Transaction -> A) :
  Observe.reads (aggregate f stages).
Proof.
  intros w. pose proof (reads_logged (OpAggregate f)
    (fun docs => match filter_pred f with
                 | Some p => Returned (stages (select p docs))
                 | None => Thrown rejected
                 end) eq_refl w) as H.
  unfold aggregate, logged in *. cbn in *.
  destruct (filter_pred f); exact H.
Qed.

Lemma reads_mapM {A B} (f : A -> M B) (l : list A) :
  (forall x, Observe.reads (f x)) -> Observe.reads (mapM f l).
Proof.
  intros Hf. induction l as [|x l IH]; simpl.
  - apply reads_ret.
  - apply reads_bind; [apply Hf|]. intros y.
    apply reads_bind; [exact IH|]. intros ys. apply reads_ret.
Qed.

Lemma reads_transactions (q : query) : Observe.reads (transactions q).
Proof.
  unfold transactions. apply reads_try_catch; [|intros e; apply reads_ret].
  destruct (parseInt _) as [p|]; [|apply reads_ret].
  destruct (parseInt _) as [n|]; [|apply reads_ret].
  apply reads_bind; [apply reads_find|]. intros shown.
  apply reads_bind; [apply reads_countDocuments|]. intros total. apply reads_ret.
Qed.

Lemma reads_statistics (q : query) : Observe.reads (statistics q).
Proof.
  unfold statistics. apply reads_try_catch; [|intros e; apply reads_ret].
  destruct (parseInt _) as [m|]; [|apply reads_ret].
  destruct (parseInt _) as [y|]; [|apply reads_ret].
  destruct ((m <? 1) || (12 <? m)); [apply reads_ret|].
  apply reads_bind; [apply reads_aggregate|].
  intros [|result rest]; [apply reads_throw | apply reads_ret].
Qed.

Lemma reads_price_range (year : Z) (q : query) : Observe.reads (price_range year q).
Proof.
  unfold price_range. apply reads_try_catch; [|intros e; apply reads_ret].
  destruct (parseInt _) as [m|]; [|apply reads_ret].
  destruct ((m <? 1) || (12 <? m)); [apply reads_ret|].
  apply reads_bind; [|intros rows; apply reads_ret].
  apply reads_mapM. intros b. unfold count_band.
  apply reads_bind; [apply reads_countDocuments | intros n; apply reads_ret].
Qed.

Lemma reads_category_stats (year : Z) (q : query) :
  Observe.reads (category_stats year q).
Proof.
  unfold category_stats. apply reads_try_catch; [|intros e; apply reads_ret].
  destruct (parseInt _) as [m|]; [|apply reads_ret].
  destruct ((m <? 1) || (12 <? m)); [apply reads_ret|].
  apply reads_bind; [apply reads_aggregate | intros rows; apply reads_ret].
Qed.

(** X15. The four query routes only read: whatever the request and
    whatever the answer, the collection is left as it was, and every call
    made on the model is a [find], a [countDocuments] or an [aggregate];
    /initialize is the only writer. *)
Theorem query_routes_only_read (env : environment) (r : route) (q : query)
    (docs : list Transaction) :
  r <> GET_initialize ->
  collection (snd (run (app env r q) docs)) = docs
  /\ forallb Observe.is_read (oplog (snd (run (app env r q) docs))) = true.
Proof.
  intros Hr.
  assert (H : Observe.reads (app env r q)).
  { destruct r; cbn [app]; [congruence | apply reads_transactions
      | apply reads_statistics | apply reads_price_range | apply reads_category_stats]. }
  destruct (H (World docs [])) as (C & ops & L & R). unfold run.
  split; [exact C|]. now rewrite L.
Qed.

Lemma answers_ret_200 (b : body) : Observe.answers (respond 200 b).
Proof. intros w. now left. Qed.

Lemma answers_ret_400 (b : body) : Observe.answers (respond 400 b).
Proof. intros w. now right. Qed.

Lemma answers_throw (e : exn) : Observe.answers (throw e).
Proof. intros w. exact I. Qed.

Lemma answers_bind {A} (m : M A) (k : A -> M response) :
  (forall a, Observe.answers (k a)) -> Observe.answers (bind m k).
Proof.
  intros Hk w. unfold bind. destruct (m w) as [[a|e] w']; [apply Hk | exact I].
Qed.

(** A handler that catches everything with a 500. *)
Lemma caught (attempt : M response) (b : exn -> body) (w : world) :
  Observe.answers attempt ->
  exists resp,
    fst (try_catch attempt (fun e => respond 500 (b e)) w) = Returned resp /\
    (status resp = 200 \/ status resp = 400 \/ status resp = 500).
Proof.
  intros H. specialize (H w). unfold try_catch.
  destruct (attempt w) as [[resp|e] w']; cbn in *.
  - exists resp. split; [reflexivity | tauto].
  - eexists. split; [reflexivity | auto].
Qed.

(** X16. No error escapes a handler: every route answers every request,
    whatever the upstream source and the collection, and its status is 200,
    400 or 500. *)
Theorem every_request_is_answered (env : environment) (r : route) (q : query)
    (docs : list Transaction) :
  exists resp,
    fst (run (app env r q) docs) = Returned resp /\
    (status resp = 200 \/ status resp = 400 \/ status resp = 500).
Proof.
  unfold run. destruct r; cbn [app].
  - unfold initialize. apply caught. apply answers_bind. intros data.
    destruct data; try apply answers_ret_400.
    apply answers_bind. intros _. apply answers_bind. intros ms.
    apply answers_bind. intros _. apply answers_ret_200.
  - unfold transactions. apply caught.
    destruct (parseInt _) as [p|]; [|apply answers_ret_400].
    destruct (parseInt _) as [n|]; [|apply answers_ret_400].
    apply answers_bind. intros shown. apply answers_bind. intros total.
    apply answers_ret_200.
  - unfold statistics. apply caught.
    destruct (parseInt _) as [m|]; [|apply answers_ret_400].
    destruct (parseInt _) as [y|]; [|apply answers_ret_400].
    destruct ((m <? 1) || (12 <? m)); [apply answers_ret_400|].
    apply answers_bind. intros [|result rest]; [apply answers_throw | apply answers_ret_200].
  - unfold price_range. apply caught.
    destruct (parseInt _) as [m|]; [|apply answers_ret_400].
    destruct ((m <? 1) || (12 <? m)); [apply answers_ret_400|].
    apply answers_bind. intros rows. apply answers_ret_200.
  - unfold category_stats. apply caught.
    destruct (parseInt _) as [m|]; [|apply answers_ret_400].
    destruct ((m <? 1) || (12 <? m)); [apply answers_ret_400|].
    apply answers_bind. intros rows. apply answers_ret_200.
Qed.

End Conduct.

(** ** The aggregates, from the side of their bounds *)
Section Bounds.
Context {platform : Platform}.

Lemma price_range_run (env : environment) (q : query) (docs : list Transaction) (m : Z) :
  parseInt (param q "month") = Some m ->
  1 <= m <= 12 ->
  fst (run (app env GET_price_range q) docs) =
    Returned (Response 200
      (PriceRange
         (map (Spec.band_row
                 (Spec.month_bounds (DateTime.MakeFullYear (getFullYear env)) m) docs)
              priceRanges))).
Proof.
  intros Em Hm. unfold run, app, price_range, try_catch. rewrite Em.
  destruct (Z.ltb_spec m 1); [lia|]. destruct (Z.ltb_spec 12 m); [lia|].
  cbv beta iota delta [orb]. unfold bind at 1.
  now rewrite mapM_count_band by exact Hm.
Qed.

Lemma count_where_le (p : Transaction -> bool) (docs : list Transaction) :
  (Spec.count_where p docs <= length docs)%nat.
Proof. unfold Spec.count_where, select. apply filter_length_le. Qed.

Lemma count_where_and_le (p r : Transaction -> bool) (docs : list Transaction) :
  (Spec.count_where (fun d => p d && r d) docs <= Spec.count_where p docs)%nat.
Proof.
  unfold Spec.count_where, select. induction docs as [|d docs IH]; simpl; [lia|].
  destruct (p d); simpl; [destruct (r d); simpl; lia | exact IH].
Qed.

(** X17. The ten bands share no price: a document is counted in at most
    one row of /price-range, and the ten counts add up to at most the number
    of documents dated in the month. *)
Theorem bands_share_no_price (env : environment) (q : query) (docs : list Transaction)
    (m : Z) :
  parseInt (param q "month") = Some m ->
  1 <= m <= 12 ->
  (forall d b1 b2,
      In b1 priceRanges -> In b2 priceRanges ->
      Spec.in_band b1 d = true -> Spec.in_band b2 d = true -> b1 = b2)
  /\ exists rows,
       fst (run (app env GET_price_range q) docs) =
         Returned (Response 200 (PriceRange rows))
       /\ (Spec.sum_counts rows <=
           Spec.count_where
             (Spec.in_window
                (Spec.month_bounds (DateTime.MakeFullYear (getFullYear env)) m))
             docs)%nat.
Proof.
  intros Em Hm. split.
  - intros d b1 b2 H1 H2 E1 E2. simpl in H1, H2.
    destruct H1 as [<-|[<-|[<-|[<-|[<-|[<-|[<-|[<-|[<-|[<-|[]]]]]]]]]]]; destruct H2 as [<-|[<-|[<-|[<-|[<-|[<-|[<-|[<-|[<-|[<-|[]]]]]]]]]]];
      try reflexivity; exfalso;
      match type of E1 with
      | Spec.in_band ?lo d = true =>
          match type of E2 with
          | Spec.in_band ?hi d = true =>
              first [ rewrite (above_band lo hi d _ eq_refl eq_refl E1) in E2;
                      discriminate E2
                    | rewrite (above_band hi lo d _ eq_refl eq_refl E2) in E1;
                      discriminate E1 ]
          end
      end.
  - eexists. split; [apply (price_range_run env q docs m Em Hm)|].
    rewrite sum_counts_bands. apply count_where_and_le.
Qed.

(** X18. The two sold counts of /statistics never exceed the documents of
    the month: together they are the number of those documents that carry
    a [sold] field, so documents without the field are in neither count. *)
Theorem sold_counts_bounded (q : query) (docs : list Transaction) (m y : Z) :
  parseInt (param q "month") = Some m ->
  parseInt (param q "year") = Some y ->
  1 <= m <= 12 ->
  let matched :=
    select (Spec.in_window (Spec.month_bounds (DateTime.MakeFullYear y) m)) docs in
  exists total soldItems notSoldItems,
    fst (run (statistics q) docs) =
      Returned (Response 200 (Statistics total soldItems notSoldItems))
    /\ (soldItems + notSoldItems)%nat =
       Spec.count_where (fun d => bool_decide (sold d <> None)) matched
    /\ (soldItems + notSoldItems <= length matched)%nat.
Proof.
  intros Em Ey Hm matched.
  rewrite (statistics_run q docs m y Em Ey Hm). fold matched. cbn [fst].
  do 3 eexists. split; [reflexivity|].
  assert (E : (Spec.count_where (Spec.sold_is true) matched +
               Spec.count_where (Spec.sold_is false) matched)%nat =
              Spec.count_where (fun d => bool_decide (sold d <> None)) matched).
  { unfold Spec.count_where, select, Spec.sold_is.
    induction matched as [|d l IH]; simpl; [reflexivity|].
    destruct (sold d) as [[]|]; simpl; lia. }
  split; [exact E|]. rewrite E. apply count_where_le.
Qed.

Lemma category_stats_run (env : environment) (q : query) (docs : list Transaction)
    (m : Z) :
  parseInt (param q "month") = Some m ->
  1 <= m <= 12 ->
  fst (run (app env GET_category_stats q) docs) =
    Returned (Response 200
      (CategoryStats
         (map_to_list
            (Stage.group_by_category
               (select (Spec.in_window
                          (Spec.month_bounds (DateTime.MakeFullYear (getFullYear env)) m))
                       docs))))).
Proof.
  intros Em Hm. unfold run, app, category_stats, try_catch. rewrite Em.
  destruct (Z.ltb_spec m 1); [lia|]. destruct (Z.ltb_spec 12 m); [lia|].
  cbv beta iota delta [orb]. unfold bind at 1.
  erewrite aggregate_run by (apply month_window_accepted; [exact Hm | reflexivity]).
  simpl collection. now rewrite select_window.
Qed.

Lemma sum_counts_at_least {A} (rows : list (A * nat)) :
  Forall (fun row => (1 <= row.2)%nat) rows -> (length rows <= Spec.sum_counts rows)%nat.
Proof. induction 1 as [|row rows Hrow _ IH]; simpl; lia. Qed.

(** X19. /category-stats lists no empty group: every count is at least 1,
    there are at most as many rows as documents dated in the month, and the
    answer is the empty list exactly when no document is dated in it. *)
Theorem category_rows_are_inhabited (env : environment) (q : query)
    (docs : list Transaction) (m : Z) :
  parseInt (param q "month") = Some m ->
  1 <= m <= 12 ->
  let matched :=
    select (Spec.in_window
              (Spec.month_bounds (DateTime.MakeFullYear (getFullYear env)) m)) docs in
  exists rows,
    fst (run (app env GET_category_stats q) docs) =
      Returned (Response 200 (CategoryStats rows))
    /\ Forall (fun row => (1 <= row.2)%nat) rows
    /\ (length rows <= length matched)%nat
    /\ (rows = [] <-> matched = []).
Proof.
  intros Em Hm matched. eexists. split; [apply (category_stats_run env q docs m Em Hm)|].
  fold matched.
  assert (Hpos : Forall (fun row : option string * nat => (1 <= row.2)%nat)
                        (map_to_list (Stage.group_by_category matched))).
  { apply List.Forall_forall. intros [c n] Hin.
    apply list_elem_of_In, elem_of_map_to_list in Hin. rewrite group_lookup in Hin.
    destruct (Spec.count_where _ matched); [discriminate|].
    injection Hin as <-. simpl. lia. }
  split; [exact Hpos|]. split.
  - rewrite <- (sum_counts_groups matched). now apply sum_counts_at_least.
  - rewrite map_to_list_empty_iff. split.
    + intros E. destruct matched as [|d l]; [reflexivity|].
      simpl in E. now apply insert_non_empty in E.
    + now intros ->.
Qed.

End Bounds.


(** ** The price in a search *)
Section NumericSearch.
Context {platform : Platform}.

(** X20. A search that [parseFloat] reads as a finite number, be it only by
    its head as in "12abc", also selects by price: once the store takes the
    search as a pattern, every document with that price matches, whatever
    its title and description.  When [parseFloat] gives NaN or an infinity
    the price plays no part: two documents with the same title and
    description match alike. *)
Theorem search_by_price (s : string) (matches : Transaction -> bool) :
  filter_pred (search_query s) = Some matches ->
  (forall n d p,
      parseFloat fl s = Fin n -> price d = Some p -> (p == n)%Q -> matches d = true)
  /\ (isFinite (parseFloat fl s) = false ->
      forall d d',
        title d = title d' -> description d = description d' ->
        matches d = matches d').
Proof.
  unfold search_query. intros Hf. split.
  - intros n d p En Ep Hpn. rewrite En in Hf. cbn -[regex_matcher] in Hf.
    destruct (regex_matcher s) as [r|]; [|discriminate].
    injection Hf as <-. cbn [existsb]. rewrite Ep. cbn [on_field].
    rewrite (proj2 (Qeq_bool_iff p n) Hpn). now rewrite !orb_true_r.
  - intros Hn d d' Et Ed.
    assert (E : (negb (isNaN (parseFloat fl s)) && isFinite (parseFloat fl s)) = false)
      by (rewrite Hn; apply andb_false_r).
    rewrite E in Hf. cbn -[regex_matcher] in Hf.
    destruct (regex_matcher s) as [r|]; [|discriminate].
    injection Hf as <-. cbn [existsb]. now rewrite Et, Ed.
Qed.

End NumericSearch.

(** ** These properties on the sample data *)

#[local] Existing Instance utcPlatform.

Section MoreWitnesses.

Lemma initialize_writes_only_for_arrays_witness :
  snd (run (initialize None) Sample.may_2024) = World Sample.may_2024 []
  /\ (@None json = None ->
      fst (run (initialize None) Sample.may_2024) =
        Returned (Response 500 (Message "Failed to initialize database")))
  /\ (@None json <> None ->
      fst (run (initialize None) Sample.may_2024) =
        Returned (Response 400 (Message "Invalid data format"))).
Proof.
  apply (initialize_writes_only_for_arrays None Sample.may_2024). discriminate.
Defined.

Lemma initialize_null_item_witness :
  run (initialize (Some (JArr Scenario.with_null))) Sample.may_2024 =
    (Returned (Response 500 (Message "Failed to initialize database")),
     World [] [OpDeleteMany (And [])]).
Proof.
  apply (initialize_null_item Scenario.with_null Sample.may_2024).
  right. left. reflexivity.
Defined.

Lemma normalize_keeps_witness :
  (forall s, property Scenario.bag_item "transaction_id" = Some (JStr s) ->
             transactionId Scenario.bag_record = Some s)
  /\ (forall s, property Scenario.bag_item "product_id" = Some (JStr s) ->
                productId Scenario.bag_record = Some s)
  /\ (forall s, property Scenario.bag_item "user_id" = Some (JStr s) ->
                userId Scenario.bag_record = Some s)
  /\ (forall q, property Scenario.bag_item "amount" = Some (JNum q) ->
                amount Scenario.bag_record = Some q)
  /\ (forall s, property Scenario.bag_item "title" = Some (JStr s) ->
                title Scenario.bag_record = Some s)
  /\ (forall s, property Scenario.bag_item "description" = Some (JStr s) ->
                description Scenario.bag_record = Some s)
  /\ (forall s, property Scenario.bag_item "category" = Some (JStr s) ->
                category Scenario.bag_record = Some s)
  /\ (forall q, property Scenario.bag_item "price" = Some (JNum q) ->
                exists p, price Scenario.bag_record = Some p /\ (p == q)%Q).
Proof. apply (normalize_keeps Scenario.bag_item Scenario.bag_record). reflexivity. Defined.

Lemma normalize_defaults_witness :
  (truthy (property Scenario.falsy_item "title") = false ->
   title Scenario.falsy_record = Some "")
  /\ (truthy (property Scenario.falsy_item "description") = false ->
      description Scenario.falsy_record = Some "")
  /\ (truthy (property Scenario.falsy_item "category") = false ->
      category Scenario.falsy_record = Some "")
  /\ (truthy (property Scenario.falsy_item "price") = false ->
      price Scenario.falsy_record = Some 0%Q)
  /\ (forall name stored,
        In (name, stored)
           [("transaction_id", transactionId Scenario.falsy_record);
            ("product_id", productId Scenario.falsy_record);
            ("user_id", userId Scenario.falsy_record)] ->
        property Scenario.falsy_item name = None \/
        property Scenario.falsy_item name = Some JNull ->
        stored = None)
  /\ (property Scenario.falsy_item "amount" = None \/
      property Scenario.falsy_item "amount" = Some JNull ->
      amount Scenario.falsy_record = None).
Proof.
  apply (normalize_defaults Scenario.falsy_item Scenario.falsy_record). reflexivity.
Defined.

Lemma ingested_records_complete_witness :
  Forall (fun d => date d <> None /\ title d <> None /\ description d <> None /\
                   price d <> None /\ category d <> None /\ sold d = None)
         Scenario.stored.
Proof.
  apply (ingested_records_complete Scenario.stored).
  apply (Spec.ingested_initialize [] (Some (JArr Sample.payload_items))).
  apply Spec.ingested_empty.
Defined.

Lemma empty_search_lists_everything_witness :
  exists totalPages,
    fst (run (transactions Scenario.no_parameters) Scenario.stored) =
      Returned (Response 200
        (TransactionsPage
           (take (Z.to_nat 10) (drop (Z.to_nat ((1 - 1) * 10)) Scenario.stored))
           (length Scenario.stored) (Fin (inject_Z totalPages)) 1 10))
    /\ Spec.is_ceiling totalPages (Z.of_nat (length Scenario.stored)) 10.
Proof.
  apply (empty_search_lists_everything Scenario.no_parameters Scenario.stored 1 10).
  - apply (Spec.ingested_initialize [] (Some (JArr Sample.payload_items))).
    apply Spec.ingested_empty.
  - left. reflexivity.
  - reflexivity.
  - reflexivity.
  - lia.
  - lia.
Defined.

Lemma pages_cover_matches_witness :
  concat (map (fun i => Observe.page_documents
                          (fst (run (transactions (Scenario.page_of_a i)) Sample.may_2024)))
              (seq 0 2))
    = take (2 * Z.to_nat 2) (select Scenario.has_an_a Sample.may_2024)
  /\ (Z.of_nat (length (select Scenario.has_an_a Sample.may_2024)) <= Z.of_nat 2 * 2 ->
      concat (map (fun i => Observe.page_documents
                              (fst (run (transactions (Scenario.page_of_a i))
                                        Sample.may_2024)))
                  (seq 0 2))
        = select Scenario.has_an_a Sample.may_2024).
Proof.
  apply (pages_cover_matches Scenario.page_of_a Sample.may_2024 2 "a"
           Scenario.has_an_a 2).
  - lia.
  - intros i Hi. destruct i as [|[|i]]; [repeat split; reflexivity .. | lia].
  - reflexivity.
Defined.

Lemma page_past_the_end_witness :
  Observe.page_documents (fst (run (transactions Sample.page_two) Sample.may_2024)) = []
  <-> Z.of_nat (length (select Scenario.has_an_a Sample.may_2024)) <= (2 - 1) * 2.
Proof.
  apply (page_past_the_end Sample.page_two Sample.may_2024 2 2 Scenario.has_an_a);
    [reflexivity | reflexivity | reflexivity | lia | lia].
Defined.

Lemma per_page_zero_witness :
  fst (run (transactions Scenario.per_page_0) Sample.may_2024) =
    Returned (Response 200
      (TransactionsPage (select Scenario.has_an_a Sample.may_2024)
         (length (select Scenario.has_an_a Sample.may_2024))
         (match select Scenario.has_an_a Sample.may_2024 with
          | [] => NaN
          | _ :: _ => Inf false
          end)
         1 0)).
Proof.
  apply (per_page_zero Scenario.per_page_0 Sample.may_2024 1 Scenario.has_an_a);
    [reflexivity | lia | unfold Spec.held_exactly; simpl; lia
     | reflexivity | reflexivity | reflexivity].
Defined.

Lemma page_below_one_witness :
  Observe.status_of (fst (run (transactions Scenario.page_0) Sample.may_2024)) = 500
  /\ snd (run (transactions Scenario.page_0) Sample.may_2024) =
       World Sample.may_2024
             [OpFind (search_query (default "" (Scenario.page_0 !! "search")))
                     ((0 - 1) * 10) 10].
Proof.
  apply (page_below_one Scenario.page_0 Sample.may_2024 0 10);
    [reflexivity | reflexivity | lia | lia].
Defined.

Lemma query_routes_only_read_witness :
  collection (snd (run (app Sample.in_2024 GET_transactions Sample.dot) Sample.may_2024))
    = Sample.may_2024
  /\ forallb Observe.is_read
       (oplog (snd (run (app Sample.in_2024 GET_transactions Sample.dot)
                        Sample.may_2024))) = true.
Proof.
  apply (query_routes_only_read Sample.in_2024 GET_transactions Sample.dot
           Sample.may_2024).
  discriminate.
Defined.

Lemma bands_share_no_price_witness :
  (forall d b1 b2,
      In b1 priceRanges -> In b2 priceRanges ->
      Spec.in_band b1 d = true -> Spec.in_band b2 d = true -> b1 = b2)
  /\ exists rows,
       fst (run (app Sample.in_2024 GET_price_range Sample.may) Sample.may_2024) =
         Returned (Response 200 (PriceRange rows))
       /\ (Spec.sum_counts rows <=
           Spec.count_where
             (Spec.in_window
                (Spec.month_bounds (DateTime.MakeFullYear (getFullYear Sample.in_2024)) 5))
             Sample.may_2024)%nat.
Proof.
  apply (bands_share_no_price Sample.in_2024 Sample.may Sample.may_2024 5);
    [reflexivity | lia].
Defined.

Lemma sold_counts_bounded_witness :
  exists total soldItems notSoldItems,
    fst (run (statistics Sample.may_of_2024) Sample.may_2024) =
      Returned (Response 200 (Statistics total soldItems notSoldItems))
    /\ (soldItems + notSoldItems)%nat =
       Spec.count_where (fun d => bool_decide (sold d <> None)) Scenario.of_may
    /\ (soldItems + notSoldItems <= length Scenario.of_may)%nat.
Proof.
  apply (sold_counts_bounded Sample.may_of_2024 Sample.may_2024 5 2024);
    [reflexivity | reflexivity | lia].
Defined.

Lemma category_rows_are_inhabited_witness :
  exists rows,
    fst (run (app Sample.in_2024 GET_category_stats Sample.may) Sample.may_2024) =
      Returned (Response 200 (CategoryStats rows))
    /\ Forall (fun row => (1 <= row.2)%nat) rows
    /\ (length rows <= length Scenario.of_may)%nat
    /\ (rows = [] <-> Scenario.of_may = []).
Proof.
  apply (category_rows_are_inhabited Sample.in_2024 Sample.may Sample.may_2024 5);
    [reflexivity | lia].
Defined.

Lemma search_by_price_witness :
  (forall n d p,
      parseFloat fl "12abc" = Fin n -> price d = Some p -> (p == n)%Q ->
      Scenario.twelve d = true)
  /\ (isFinite (parseFloat fl "12abc") = false ->
      forall d d',
        title d = title d' -> description d = description d' ->
        Scenario.twelve d = Scenario.twelve d').
Proof. apply (search_by_price "12abc" Scenario.twelve). reflexivity. Defined.

End MoreWitnesses.
